(** * MGRS Map Creator: validation, batch conversion and KML export

    A shallow embedding of [app.py]: the format validator
    [validate_mgrs_format], the [/convert] handler [convert_mgrs] and the
    [/export_kml] handler [export_kml], followed by the properties of the
    specification that concern them.

    Conventions of the embedding.
    - A Python [str] is a Rocq [string], read as its UTF-8 text.  The string
      methods the program calls ([upper], [strip], [isdigit], the classes
      [\s], [\d], [[C-X]], [[A-Z]] of [re]) are embedded with Python's
      behaviour on ASCII characters; any other byte is left alone by [upper]
      and is neither a blank nor a digit.  Python's own methods also know
      the blanks, digits and letters outside ASCII: a property whose truth
      depends on them is stated for texts of ASCII characters
      ([ascii_text]).
    - A request point is a JSON object whose fields, when present, have the
      types of the data model: strings for [name], [mgrs], [color],
      [category], [iconType], numbers for [lat], [lon].  [None] is an absent
      key, and also a JSON null where the program reads the field with
      [p.get(key)]; a null read with [p.get(key, default)] ([iconType] and
      [color] in the export) is outside the model.
    - The conversion library, Python's [round], the clock and the formatting
      of floating-point numbers are parameters of the handlers. *)

From Stdlib Require Import String Ascii List Bool Arith Lia Floats DecimalString
  Permutation.
Import ListNotations.
Open Scope list_scope.
Open Scope string_scope.
Open Scope nat_scope.

(* ================================================================= *)
(** ** Characters and strings *)

Definition between (lo hi c : ascii) : bool :=
  (nat_of_ascii lo <=? nat_of_ascii c) && (nat_of_ascii c <=? nat_of_ascii hi).

(** [str.isdigit] and the class [\d]. *)
Definition isdigit (c : ascii) : bool := between "0" "9" c.

(** [str.isspace], also the class [\s]: tab, line feed, vertical tab, form
    feed, carriage return, the four separators 28..31 and the space. *)
Definition isspace (c : ascii) : bool :=
  between "009" "013" c || between "028" "032" c.

Definition upper_char (c : ascii) : ascii :=
  if between "a" "z" c then ascii_of_nat (nat_of_ascii c - 32) else c.

(** [s.upper()] *)
Fixpoint upper (s : string) : string :=
  match s with
  | EmptyString => EmptyString
  | String c r => String (upper_char c) (upper r)
  end.

(** [re.sub(r'\s+', '', s)]: every run of blanks is deleted. *)
Fixpoint remove_spaces (s : string) : string :=
  match s with
  | EmptyString => EmptyString
  | String c r => if isspace c then remove_spaces r else String c (remove_spaces r)
  end.

Fixpoint lstrip (s : string) : string :=
  match s with
  | EmptyString => EmptyString
  | String c r => if isspace c then lstrip r else s
  end.

Fixpoint rstrip (s : string) : string :=
  match s with
  | EmptyString => EmptyString
  | String c r =>
      match rstrip r with
      | EmptyString => if isspace c then EmptyString else String c EmptyString
      | r' => String c r'
      end
  end.

(** [s.strip()] *)
Definition strip (s : string) : string := rstrip (lstrip s).

(** [s[n:]] *)
Fixpoint drop (n : nat) (s : string) : string :=
  match n, s with
  | O, _ => s
  | S _, EmptyString => EmptyString
  | S m, String _ r => drop m r
  end.

(** [str(n)] for a natural number. *)
Definition decimal (n : nat) : string := NilEmpty.string_of_uint (Nat.to_uint n).

(** [not s] for a string. *)
Definition is_empty (s : string) : bool :=
  match s with EmptyString => true | _ => false end.

(** [old] replaced by [new] everywhere, [s.replace(old, new)] for a pattern
    [old] of one character. *)
Fixpoint replace (old : ascii) (new : string) (s : string) : string :=
  match s with
  | EmptyString => EmptyString
  | String c r =>
      if Ascii.eqb c old then new ++ replace old new r
      else String c (replace old new r)
  end.

Definition dquote : string := String "034" EmptyString.
Definition newline : ascii := "010"%char.

(* ================================================================= *)
(** ** The regular expression of the validator *)

(** A pattern of the shape the program uses: a sequence of character
    classes, each with a bounded repetition [{lo,hi}], anchored at both
    ends. *)
Record atom := Atom { cls : ascii -> bool; lo : nat; hi : nat }.

(** Number of leading characters of [s] in the class, at most [limit]. *)
Fixpoint run_length (p : ascii -> bool) (limit : nat) (s : string) : nat :=
  match limit, s with
  | S l, String c r => if p c then S (run_length p l r) else 0
  | _, _ => 0
  end.

(** [$] without [re.MULTILINE]: the end of the string, or just before a line
    feed that ends the string. *)
Definition at_end (s : string) : bool :=
  match s with
  | EmptyString => true
  | String c EmptyString => Ascii.eqb c newline
  | _ => false
  end.

(** A greedy repetition gives back one character at a time: the counts
    [n], [n-1], ..., [least] are tried in turn with the continuation [k]. *)
Fixpoint try_counts (k : string -> bool) (s : string) (least n : nat) : bool :=
  if n <? least then false
  else if k (drop n s) then true
  else match n with
       | O => false
       | S m => try_counts k s least m
       end.

Fixpoint match_atoms (atoms : list atom) (s : string) : bool :=
  match atoms with
  | [] => at_end s
  | a :: rest =>
      try_counts (match_atoms rest) s (lo a) (run_length (cls a) (hi a) s)
  end.

(** [r'^\d{1,2}[C-X][A-Z]{2}\d{2,10}$'] *)
Definition pattern : list atom :=
  [ Atom isdigit 1 2; Atom (between "C" "X") 1 1;
    Atom (between "A" "Z") 2 2; Atom isdigit 2 10 ].

(** [re.match(pattern, s)] as a truth value. *)
Definition re_match (s : string) : bool := match_atoms pattern s.

(* ================================================================= *)
(** ** [validate_mgrs_format] *)

Definition msg_required : string := "MGRS code is required".
Definition msg_format : string :=
  "Invalid MGRS format. Expected format: 23KKP4014597230".
Definition msg_even : string :=
  "MGRS coordinates must have even number of digits".
Definition msg_lengths (n : nat) : string :=
  "MGRS coordinates must have 2, 4, 6, 8, or 10 digits. Found "
    ++ decimal n ++ " digits".

(** The loop that looks for the first digit at an index of 3 or more;
    [coord_start] stays 0 when there is none. *)
Fixpoint coord_start_from (i : nat) (s : string) : nat :=
  match s with
  | EmptyString => 0
  | String c r =>
      if (3 <=? i) && isdigit c then i else coord_start_from (S i) r
  end.

Definition coord_start (clean_mgrs : string) : nat :=
  coord_start_from 0 clean_mgrs.

Definition valid_lengths : list nat := [2; 4; 6; 8; 10].

Definition clean (mgrs_code : string) : string :=
  remove_spaces (upper mgrs_code).

Definition validate_mgrs_format (mgrs_code : string) : bool * string :=
  if is_empty mgrs_code then (false, msg_required)
  else
    let clean_mgrs := clean mgrs_code in
    if negb (re_match clean_mgrs) then (false, msg_format)
    else
      let coord_part := drop (coord_start clean_mgrs) clean_mgrs in
      if negb (String.length coord_part mod 2 =? 0) then (false, msg_even)
      else if negb (existsb (Nat.eqb (String.length coord_part)) valid_lengths)
      then (false, msg_lengths (String.length coord_part))
      else (true, clean_mgrs).

(* ================================================================= *)
(** ** Request points, JSON values, exceptions *)

(** A point of a request body.  The two handlers read the same objects: the
    client sends the converted points back for export. *)
Record point := Point {
  name : option string;
  mgrs : option string;
  lat : option float;
  lon : option float;
  color : option string;
  iconType : option string;
  category : option string
}.

(** [v or default] for an optional string: an absent key, null and the empty
    string are all false. *)
Definition or_else (v : option string) (default : string) : string :=
  match v with
  | Some s => if is_empty s then default else s
  | None => default
  end.

(** [p.get(key, default)]: the default stands in for an absent key only. *)
Definition get_default {A : Type} (v : option A) (default : A) : A :=
  match v with
  | Some a => a
  | None => default
  end.

(** The values of the entries the handlers answer with. *)
Inductive value :=
| Str (s : string)
| Num (x : float).

(** A dict literal, its keys in the order they are written. *)
Definition dict := list (string * value).

Fixpoint get (key : string) (d : dict) : option value :=
  match d with
  | [] => None
  | (k, v) :: rest => if String.eqb k key then Some v else get key rest
  end.

(** [key in d] *)
Definition has (key : string) (d : dict) : bool :=
  match get key d with Some _ => true | None => false end.

(** [l.append(x)] *)
Definition push {A : Type} (l : list A) (x : A) : list A := (l ++ [x])%list.

(** What a handler returns: [jsonify({"error": error}), status], or
    [jsonify({"points": points})] with the status 200, or the KML document
    with its two headers. *)
Inductive response :=
| ErrorResponse (status : nat) (error : string)
| PointsResponse (points : list dict)
| KmlResponse (content_type content_disposition document : string).

(** A computation that returns or raises; an exception is kept as the text
    [str(e)], which is all that [except Exception as e] uses. *)
Inductive outcome (A : Type) :=
| Returned (a : A)
| Raised (e : string).
Arguments Returned {A} a.
Arguments Raised {A} e.

Definition bind {A B : Type} (m : outcome A) (k : A -> outcome B) : outcome B :=
  match m with
  | Returned a => k a
  | Raised e => Raised e
  end.

(** [try: m  except Exception as e: handler e] *)
Definition try_except {A : Type} (m : outcome A) (handler : string -> outcome A)
  : outcome A :=
  match m with
  | Returned a => Returned a
  | Raised e => handler e
  end.

Notation "x <- m ;; k" := (bind m (fun x => k))
  (at level 61, m at next level, right associativity).

(* ================================================================= *)
(** ** [convert_mgrs], the handler of [POST /convert] *)

Section ConvertMgrs.

(** [m.toLatLon] of the [mgrs] library, which returns a pair of floats or
    raises, and [round(float(x), 8)]. *)
Variable toLatLon : string -> outcome (float * float).
Variable round8 : float -> float.

Definition error_entry (name code error color category : string) : dict :=
  [ ("name", Str name); ("mgrs", Str code); ("error", Str error);
    ("color", Str color); ("category", Str category) ].

Definition success_entry (name code : string) (lat lon : float)
  (color category : string) : dict :=
  [ ("name", Str name); ("mgrs", Str code);
    ("lat", Num (round8 lat)); ("lon", Num (round8 lon));
    ("color", Str color); ("category", Str category) ].

(** [-90 <= lat <= 90] and [-180 <= lon <= 180] *)
Definition lat_in_range (lat : float) : bool :=
  ((-90 <=? lat) && (lat <=? 90))%float.
Definition lon_in_range (lon : float) : bool :=
  ((-180 <=? lon) && (lon <=? 180))%float.

(** The body of the inner [try]. *)
Definition try_convert (out : list dict) (name clean_mgrs color category : string)
  : outcome (list dict) :=
  ll <- toLatLon clean_mgrs ;;
  let (lat, lon) := (ll : float * float) in
  if negb (lat_in_range lat) || negb (lon_in_range lon)
  then Raised "Coordinates out of valid range"
  else Returned (push out (success_entry name clean_mgrs lat lon color category)).

(** One turn of the loop over [enumerate(points)]; [out] is the list built
    so far. *)
Definition convert_point (i : nat) (p : point) (out : list dict)
  : outcome (list dict) :=
  let code := strip (or_else (mgrs p) "") in
  let name := or_else (name p) ("Ponto " ++ decimal (i + 1)) in
  let color := or_else (color p) "#3388ff" in
  let category := or_else (category p) "Ponto" in
  if is_empty code then
    Returned (push out (error_entry name code msg_required color category))
  else
    let (is_valid, result) := validate_mgrs_format code in
    if negb is_valid then
      Returned (push out (error_entry name code result color category))
    else
      let clean_mgrs := result in
      try_except (try_convert out name clean_mgrs color category)
        (fun e =>
           let error_msg := "Falha ao converter MGRS: " ++ e in
           Returned (push out (error_entry name clean_mgrs error_msg color category))).

Fixpoint convert_loop (i : nat) (points : list point) (out : list dict)
  : outcome (list dict) :=
  match points with
  | [] => Returned out
  | p :: rest =>
      out' <- convert_point i p out ;;
      convert_loop (S i) rest out'
  end.

Definition convert_mgrs (points : list point) : response :=
  match
    match points with
    | [] => Returned (ErrorResponse 400 "No points provided")
    | _ =>
        out <- convert_loop 0 points [] ;;
        Returned (PointsResponse out)
    end
  with
  | Returned r => r
  | Raised _ => ErrorResponse 500 "Internal server error"
  end.

End ConvertMgrs.

(* ================================================================= *)
(** ** [export_kml], the handler of [POST /export_kml] *)

Definition nl : string := String newline EmptyString.

(** A string between double quotes. *)
Definition quoted (s : string) : string := dquote ++ s ++ dquote.

(** [table.get(key, default)] for a dict of strings. *)
Fixpoint lookup (table : list (string * string)) (key default : string) : string :=
  match table with
  | [] => default
  | (k, v) :: rest => if String.eqb k key then v else lookup rest key default
  end.

Definition circle_url : string :=
  "http://maps.google.com/mapfiles/kml/pushpin/red-pushpin.png".

Definition kml_icon_map : list (string * string) :=
  [ ("circle", circle_url);
    ("target", "http://maps.google.com/mapfiles/kml/shapes/target.png");
    ("base", "http://maps.google.com/mapfiles/kml/shapes/camping.png");
    ("enemy", "http://maps.google.com/mapfiles/kml/shapes/caution.png");
    ("observation", "http://maps.google.com/mapfiles/kml/shapes/ranger_station.png");
    ("extraction", "http://maps.google.com/mapfiles/kml/shapes/helicopter.png");
    ("medical", "http://maps.google.com/mapfiles/kml/shapes/hospitals.png");
    ("supply", "http://maps.google.com/mapfiles/kml/shapes/convenience.png");
    ("checkpoint", "http://maps.google.com/mapfiles/kml/shapes/roadblock.png");
    ("sniper", "http://maps.google.com/mapfiles/kml/shapes/target.png") ].

Definition icon_names : list (string * string) :=
  [ ("circle", "Padrão"); ("target", "Alvo"); ("base", "Base");
    ("enemy", "Inimigo"); ("observation", "Observação");
    ("extraction", "Extração"); ("medical", "Médico");
    ("supply", "Suprimentos"); ("checkpoint", "Checkpoint");
    ("sniper", "Sniper") ].

(** [used_icons.add(x)].  The set is kept as the list of its elements, each
    once, in the order of their first insertion. *)
Definition set_add (x : string) (s : list string) : list string :=
  if existsb (String.eqb x) s then s else push s x.

(** The set built by the first loop over [points]. *)
Definition used_icons (points : list point) : list string :=
  fold_left (fun s p => set_add (get_default (iconType p) "circle") s) points [].

(** The four lines appended for one icon type. *)
Definition style_open (icon_type : string) : string :=
  "<Style id=" ++ quoted ("style_" ++ icon_type) ++ ">".

Definition style_lines (icon_type : string) : list string :=
  let icon_url := lookup kml_icon_map icon_type circle_url in
  [ style_open icon_type;
    "<IconStyle><scale>1.3</scale><Icon><href>" ++ icon_url
      ++ "</href></Icon></IconStyle>";
    "<LabelStyle><scale>1.2</scale></LabelStyle>";
    "</Style>" ].

Definition route_style_lines : list string :=
  [ "<Style id=" ++ quoted "routeStyle" ++ ">";
    "<LineStyle><color>ff0000ff</color><width>4</width></LineStyle>";
    "</Style>" ].

(** The chain of [replace] calls on the display name. *)
Definition escape_name (s : string) : string :=
  replace ">" "&gt;" (replace "<" "&lt;" (replace "&" "&amp;" s)).

(** [p[key]] on a field of a point: a [KeyError] when it is absent. *)
Definition getitem {A : Type} (key : string) (v : option A) : outcome A :=
  match v with
  | Some a => Returned a
  | None => Raised key
  end.

Section ExportKml.

(** The clock: [timestamp] is the first reading of [datetime.now()], in
    the format [%Y%m%d_%H%M%S]; [now_text i] is the reading taken for the
    description of the point at index [i], and [now_text (len(points))] the
    one taken for the route, both in the format [%d/%m/%Y %H:%M:%S].  Then
    the two renderings of a number: the format [.6f] and [str]. *)
Variable timestamp : string.
Variable now_text : nat -> string.
Variable format_6f : float -> string.
Variable format_num : float -> string.

(** The order in which [for icon_type in used_icons] visits a set, given the
    elements in the order of their insertion.  Python fixes none: it depends
    on the hashes of the strings, which change from one process to the
    next. *)
Variable set_order : list string -> list string.

Definition header_lines : list string :=
  [ "<?xml version=" ++ quoted "1.0" ++ " encoding=" ++ quoted "UTF-8" ++ "?>";
    "<kml xmlns=" ++ quoted "http://www.opengis.net/kml/2.2" ++ ">";
    "<Document><name>Marcadores MGRS - " ++ timestamp ++ "</name>";
    "<description>Exportado do Task Force MGRS Mapper v2.0</description>" ].

Definition indent : string := "                ".

Definition description_of (mgrs_code category icon_name color : string)
  (lat lon : float) (exported : string) : string :=
  "<![CDATA[" ++ nl
    ++ indent ++ "<b>MGRS:</b> " ++ mgrs_code ++ "<br>" ++ nl
    ++ indent ++ "<b>Categoria:</b> " ++ category ++ "<br>" ++ nl
    ++ indent ++ "<b>Tipo de Ícone:</b> " ++ icon_name ++ "<br>" ++ nl
    ++ indent ++ "<b>Cor:</b> " ++ color ++ "<br>" ++ nl
    ++ indent ++ "<b>Coordenadas:</b> " ++ format_6f lat ++ ", "
    ++ format_6f lon ++ "<br>" ++ nl
    ++ indent ++ "<b>Exportado em:</b> " ++ exported ++ "<br>" ++ nl
    ++ indent ++ "<b>Fonte:</b> Task Force MGRS Mapper v2.0" ++ nl
    ++ "            ]]>".

Definition placemark (name description icon_type : string) (lat lon : float)
  : string :=
  "<Placemark><name>" ++ name ++ "</name>"
    ++ "<description>" ++ description ++ "</description>"
    ++ "<styleUrl>#style_" ++ icon_type ++ "</styleUrl>"
    ++ "<Point><coordinates>" ++ format_num lon ++ "," ++ format_num lat
    ++ ",0</coordinates></Point>"
    ++ "</Placemark>".

(** One turn of the second loop over [enumerate(points)]: the state is the
    pair of [kml] and [valid_points]. *)
Definition export_point (i : nat) (p : point)
  (state : list string * list point) : list string * list point :=
  let (kml, valid_points) := state in
  let name := escape_name (or_else (name p) ("Ponto " ++ decimal (i + 1))) in
  let mgrs_code := replace "&" "&amp;" (or_else (mgrs p) "") in
  let category := replace "&" "&amp;" (or_else (category p) "Ponto") in
  let icon_type := get_default (iconType p) "circle" in
  let color := get_default (color p) "#3388ff" in
  match lat p, lon p with
  | Some lat, Some lon =>
      let valid_points := push valid_points p in
      let icon_name := lookup icon_names icon_type "Padrão" in
      let description :=
        description_of mgrs_code category icon_name color lat lon (now_text i) in
      (push kml (placemark name description icon_type lat lon), valid_points)
  | _, _ => (kml, valid_points)
  end.

Fixpoint export_loop (i : nat) (points : list point)
  (state : list string * list point) : list string * list point :=
  match points with
  | [] => state
  | p :: rest => export_loop (S i) rest (export_point i p state)
  end.

(** [f"{p['lon']},{p['lat']},0"] *)
Definition route_coord (p : point) : outcome string :=
  x <- getitem "lon" (lon p) ;;
  y <- getitem "lat" (lat p) ;;
  Returned (format_num x ++ "," ++ format_num y ++ ",0").

Fixpoint route_coords (valid_points : list point) : outcome (list string) :=
  match valid_points with
  | [] => Returned []
  | p :: rest =>
      c <- route_coord p ;;
      cs <- route_coords rest ;;
      Returned (c :: cs)
  end.

Definition route_description (valid_points : list point) (created : string)
  : string :=
  "<![CDATA[" ++ nl
    ++ indent ++ "<b>Rota conectando " ++ decimal (List.length valid_points)
    ++ " pontos</b><br>" ++ nl
    ++ indent ++ "<b>Distância aproximada:</b> Calculada pelo Google Earth<br>" ++ nl
    ++ indent ++ "<b>Criado em:</b> " ++ created ++ nl
    ++ "            ]]".

(** The optional route: three more items of [kml]. *)
Definition route_lines (created : string) (connect : bool)
  (valid_points : list point) : outcome (list string) :=
  if connect && (2 <=? List.length valid_points) then
    cs <- route_coords valid_points ;;
    let coords := String.concat " " cs in
    Returned
      [ "<Folder><name>Rota</name>";
        "<Placemark><name>Rota Tática</name>"
          ++ "<description>" ++ route_description valid_points created
          ++ "</description>"
          ++ "<styleUrl>#routeStyle</styleUrl>"
          ++ "<LineString><tessellate>1</tessellate><altitudeMode>clampToGround</altitudeMode>"
          ++ "<coordinates>" ++ coords ++ "</coordinates></LineString></Placemark>";
        "</Folder>" ]
  else Returned [].

(** The list [kml] when the handler joins it. *)
Definition kml_items (points : list point) (connect : bool)
  : outcome (list string) :=
  let kml := header_lines in
  let kml := (kml ++ flat_map style_lines (set_order (used_icons points)))%list in
  let kml := (kml ++ route_style_lines)%list in
  let kml := push kml "<Folder><name>Pontos</name>" in
  let (kml, valid_points) := export_loop 0 points (kml, []) in
  let kml := push kml "</Folder>" in
  route <- route_lines (now_text (List.length points)) connect valid_points ;;
  let kml := (kml ++ route)%list in
  Returned (push kml "</Document></kml>").

Definition export_kml (points : list point) (connect : bool) : response :=
  match
    match points with
    | [] => Returned (ErrorResponse 400 "No points to export")
    | _ =>
        kml <- kml_items points connect ;;
        let kml_str := String.concat nl kml in
        Returned
          (KmlResponse "application/vnd.google-earth.kml+xml"
             ("attachment; filename=marcadores_mgrs_" ++ timestamp ++ ".kml")
             kml_str)
    end
  with
  | Returned r => r
  | Raised _ => ErrorResponse 500 "Failed to export KML"
  end.

End ExportKml.

(* ================================================================= *)
(** ** Notions used to state the properties *)

(** [s[:n]] *)
Fixpoint take (n : nat) (s : string) : string :=
  match n, s with
  | S m, String c r => String c (take m r)
  | _, _ => EmptyString
  end.

(** Every character of [s] is in the class [p]. *)
Fixpoint all_in (p : ascii -> bool) (s : string) : bool :=
  match s with
  | EmptyString => true
  | String c r => p c && all_in p r
  end.

(** The language of a pattern: the string splits into one run per atom, of
    a length the atom allows and of characters of its class, up to the end
    that [$] accepts. *)
Inductive matches : list atom -> string -> Prop :=
| matches_end (s : string) :
    at_end s = true -> matches [] s
| matches_atom (a : atom) (rest : list atom) (run tail : string) :
    lo a <= String.length run -> String.length run <= hi a ->
    all_in (cls a) run = true ->
    matches rest tail ->
    matches (a :: rest) (run ++ tail).

(** The parts of a code: zone number, band letter, square letters, digits,
    and what [$] leaves after them. *)
Definition code_of (zone : string) (band : ascii) (square digits e : string) : string :=
  zone ++ String band (square ++ digits ++ e).

Definition well_formed (zone : string) (band : ascii) (square digits e : string) : Prop :=
  1 <= String.length zone <= 2 /\ all_in isdigit zone = true
  /\ between "C" "X" band = true
  /\ String.length square = 2 /\ all_in (between "A" "Z") square = true
  /\ 2 <= String.length digits <= 10 /\ all_in isdigit digits = true
  /\ at_end e = true.

(** The entry that one point of a batch gives rise to, case by case. *)
Section ItemResult.

Variable toLatLon : string -> outcome (float * float).
Variable round8 : float -> float.

(** The defaults of [convert_mgrs], and the code after [strip]. *)
Definition name_of (i : nat) (p : point) : string :=
  or_else (name p) ("Ponto " ++ decimal (i + 1)).
Definition color_of (p : point) : string := or_else (color p) "#3388ff".
Definition category_of (p : point) : string := or_else (category p) "Ponto".
Definition stripped_code (p : point) : string := strip (or_else (mgrs p) EmptyString).

Inductive item_result (i : nat) (p : point) : dict -> Prop :=
| item_required :
    stripped_code p = EmptyString ->
    item_result i p
      (error_entry (name_of i p) EmptyString msg_required (color_of p) (category_of p))
| item_invalid (reason : string) :
    stripped_code p <> EmptyString ->
    validate_mgrs_format (stripped_code p) = (false, reason) ->
    item_result i p
      (error_entry (name_of i p) (stripped_code p) reason (color_of p) (category_of p))
| item_refused (n detail : string) :
    stripped_code p <> EmptyString ->
    validate_mgrs_format (stripped_code p) = (true, n) ->
    toLatLon n = Raised detail ->
    item_result i p
      (error_entry (name_of i p) n ("Falha ao converter MGRS: " ++ detail)
         (color_of p) (category_of p))
| item_out_of_range (n : string) (la lo : float) :
    stripped_code p <> EmptyString ->
    validate_mgrs_format (stripped_code p) = (true, n) ->
    toLatLon n = Returned (la, lo) ->
    lat_in_range la && lon_in_range lo = false ->
    item_result i p
      (error_entry (name_of i p) n
         "Falha ao converter MGRS: Coordinates out of valid range"
         (color_of p) (category_of p))
| item_converted (n : string) (la lo : float) :
    stripped_code p <> EmptyString ->
    validate_mgrs_format (stripped_code p) = (true, n) ->
    toLatLon n = Returned (la, lo) ->
    lat_in_range la && lon_in_range lo = true ->
    item_result i p
      (success_entry round8 (name_of i p) n la lo (color_of p) (category_of p)).

End ItemResult.

(** A point that the export keeps: both coordinates are there. *)
Definition has_coords (p : point) : bool :=
  match lat p, lon p with
  | Some _, Some _ => true
  | _, _ => false
  end.

(** The icon type a point is drawn with. *)
Definition icon_of (p : point) : string := get_default (iconType p) "circle".

(** The placemarks of the points from index [i] on, as the second loop of
    [export_kml] appends them. *)
Definition marks (now_text : nat -> string) (format_6f format_num : float -> string)
  (i : nat) (points : list point) : list string :=
  fst (export_loop now_text format_6f format_num i points ([], [])).

(** [s.startswith(pre)] *)
Fixpoint starts_with (pre s : string) {struct pre} : bool :=
  match pre with
  | EmptyString => true
  | String a pre' =>
      match s with
      | EmptyString => false
      | String b s' => Ascii.eqb a b && starts_with pre' s'
      end
  end.

(** A text with no raw markup character: no [<] and no [>], and every [&]
    opens one of the three entities. *)
Fixpoint escaped (s : string) : bool :=
  match s with
  | EmptyString => true
  | String c r =>
      if Ascii.eqb c "<" || Ascii.eqb c ">" then false
      else if Ascii.eqb c "&"
           then (starts_with "amp;" r || starts_with "lt;" r || starts_with "gt;" r)
                && escaped r
           else escaped r
  end.

(** A line that opens no style definition of an icon type. *)
Definition plain_line (line : string) : Prop := forall icon, line <> style_open icon.

(** A character that is no blank. *)
Definition nonspace (c : ascii) : bool := negb (isspace c).

(** The text of one point in the coordinates of the route. *)
Definition coord_text (format_num : float -> string) (p : point) : string :=
  match lon p, lat p with
  | Some x, Some y => format_num x ++ "," ++ format_num y ++ ",0"
  | _, _ => EmptyString
  end.

(** A character that the display name has to escape. *)
Definition is_markup (c : ascii) : bool :=
  Ascii.eqb c "&" || Ascii.eqb c "<" || Ascii.eqb c ">".

(** An ASCII character, as [str.isascii] has it, and a text of such
    characters: the inputs on which the string methods above are those of
    Python, character for character. *)
Definition is_ascii (c : ascii) : bool := nat_of_ascii c <? 128.
Definition ascii_text (s : string) : bool := all_in is_ascii s.



(** The entity form of a text, in the words of the specification: [&], [<]
    and [>] are replaced by [&amp;], [&lt;] and [&gt;], and every other
    character stands for itself. *)
Definition entity_of (c : ascii) : string :=
  if Ascii.eqb c "&" then "&amp;"
  else if Ascii.eqb c "<" then "&lt;"
  else if Ascii.eqb c ">" then "&gt;"
  else String c EmptyString.

Fixpoint entity_text (s : string) : string :=
  match s with
  | EmptyString => EmptyString
  | String c r => entity_of c ++ entity_text r
  end.

(* ================================================================= *)
(** ** Concrete data, for the examples *)

(** A conversion library that knows two codes, the second of them with a
    latitude out of range, and refuses every other code. *)
Definition demo_toLatLon (code : string) : outcome (float * float) :=
  if String.eqb code "23KKP4014597230" then Returned ((-23.5)%float, (-46.625)%float)
  else if String.eqb code "31UDQ4825" then Returned (95%float, 3%float)
  else Raised "MGRSError".

(** The coordinates of the examples have fewer than eight decimals. *)
Definition demo_round8 (x : float) : float := x.

(** A clock, and the two renderings of the coordinates of the examples. *)
Definition demo_timestamp : string := "20250101_120000".
Definition demo_now (i : nat) : string := "01/01/2025 12:00:0" ++ decimal i.

Definition demo_format_6f (x : float) : string :=
  if (x =? -23.5)%float then "-23.500000"
  else if (x =? -46.625)%float then "-46.625000"
  else "0.000000".

Definition demo_format_num (x : float) : string :=
  if (x =? -23.5)%float then "-23.5"
  else if (x =? -46.625)%float then "-46.625"
  else "0.0".

(** An order of iteration over a set: the last inserted first. *)
Definition demo_set_order (s : list string) : list string := rev s.

(** A batch of five items: a good code with blanks around it, a code that
    the validator refuses, a code converted out of range, a code the library
    refuses, and an item with no code. *)
Definition demo_batch : list point :=
  [ Point None (Some " 23kkp4014597230 ") None None None None None;
    Point (Some "") (Some " 23K4014 ") None None (Some "red") None (Some "");
    Point (Some "a") (Some "31udq4825") None None (Some "red") None (Some "");
    Point (Some "b") (Some "31UDQ48") None None (Some "") None (Some "c");
    Point (Some "b") None None None (Some "red") None (Some "c") ].

(** The answer of [convert_mgrs] to [demo_batch]. *)
Definition demo_answer : list dict :=
  [ success_entry demo_round8 "Ponto 1" "23KKP4014597230"
      (-23.5)%float (-46.625)%float "#3388ff" "Ponto";
    error_entry "Ponto 2" "23K4014" msg_format "red" "Ponto";
    error_entry "a" "31UDQ4825"
      "Falha ao converter MGRS: Coordinates out of valid range" "red" "Ponto";
    error_entry "b" "31UDQ48" "Falha ao converter MGRS: MGRSError" "#3388ff" "c";
    error_entry "b" EmptyString msg_required "red" "c" ].

(** Two points for the export: the first has its coordinates and the
    default icon, the second has the icon type [target] and no coordinates. *)
Definition kept_point : point :=
  Point (Some "A<B & C>") (Some "23KKP4014597230") (Some (-23.5)%float)
    (Some (-46.625)%float) None None None.
Definition dropped_point : point :=
  Point (Some "D") (Some "23K4014") None None None (Some "target") None.

(* ================================================================= *)
(** * Properties *)

(** ** The scenarios of the specification *)

Example validate_lowercase :
  validate_mgrs_format "23kkp4014597230" = (true, "23KKP4014597230").
Proof. reflexivity. Qed.

Example validate_one_square_letter :
  validate_mgrs_format "23K4014" = (false, msg_format).
Proof. reflexivity. Qed.

Example validate_odd_digits :
  validate_mgrs_format "4QFJ123" = (false, msg_even).
Proof. reflexivity. Qed.

Example validate_blank_only :
  validate_mgrs_format "   " = (false, msg_format)
  /\ validate_mgrs_format EmptyString = (false, msg_required).
Proof. split; reflexivity. Qed.

Example strip_keeps_inner_blanks : strip "  23K  4014 " = "23K  4014".
Proof. reflexivity. Qed.

Example convert_demo_batch :
  convert_mgrs demo_toLatLon demo_round8 demo_batch = PointsResponse demo_answer.
Proof. vm_compute. reflexivity. Qed.

Example convert_no_points :
  convert_mgrs demo_toLatLon demo_round8 [] = ErrorResponse 400 "No points provided".
Proof. reflexivity. Qed.

Example export_no_points :
  export_kml demo_timestamp demo_now demo_format_6f demo_format_num demo_set_order
    [] true
  = ErrorResponse 400 "No points to export".
Proof. reflexivity. Qed.

(** One point with coordinates and [connectRoute]: no route is drawn. *)
Example export_one_point_no_route :
  route_lines demo_format_num (demo_now 1) true [kept_point] = Returned []
  /\ kml_items demo_timestamp demo_now demo_format_6f demo_format_num demo_set_order
       [kept_point] true
     = Returned
         (header_lines demo_timestamp ++ style_lines "circle" ++ route_style_lines
            ++ ["<Folder><name>Pontos</name>"]
            ++ marks demo_now demo_format_6f demo_format_num 0 [kept_point]
            ++ ["</Folder>"; "</Document></kml>"])%list.
Proof. split; vm_compute; reflexivity. Qed.

(** ** Characters *)

Ltac ascii_cases c :=
  destruct c as [[] [] [] [] [] [] [] []]; vm_compute;
  try reflexivity; try discriminate; intros; try reflexivity; try discriminate.

Lemma upper_char_idem c : upper_char (upper_char c) = upper_char c.
Proof. ascii_cases c. Qed.

Lemma isspace_upper_char c : isspace (upper_char c) = isspace c.
Proof. ascii_cases c. Qed.

Lemma letter_not_digit c : between "A" "Z" c = true -> isdigit c = false.
Proof. ascii_cases c. Qed.

Lemma band_is_letter c : between "C" "X" c = true -> between "A" "Z" c = true.
Proof. ascii_cases c. Qed.

(** ** Normalisation *)

Lemma upper_idem s : upper (upper s) = upper s.
Proof.
  induction s as [|c r IH]; simpl; [reflexivity|].
  now rewrite upper_char_idem, IH.
Qed.

Lemma upper_remove_spaces s : upper (remove_spaces s) = remove_spaces (upper s).
Proof.
  induction s as [|c r IH]; simpl; [reflexivity|].
  rewrite isspace_upper_char.
  destruct (isspace c); simpl; now rewrite IH.
Qed.

Lemma remove_spaces_idem s : remove_spaces (remove_spaces s) = remove_spaces s.
Proof.
  induction s as [|c r IH]; simpl; [reflexivity|].
  destruct (isspace c) eqn:E; simpl; [assumption|].
  now rewrite E, IH.
Qed.

Lemma clean_idem s : clean (clean s) = clean s.
Proof.
  unfold clean.
  now rewrite upper_remove_spaces, upper_idem, remove_spaces_idem.
Qed.

Lemma re_match_nonempty s : re_match s = true -> is_empty s = false.
Proof. destruct s; [discriminate | reflexivity]. Qed.

(** What a successful validation says about its input. *)
Lemma validate_true_inv raw n :
  validate_mgrs_format raw = (true, n) ->
  n = clean raw /\ re_match n = true
  /\ String.length (drop (coord_start n) n) mod 2 = 0
  /\ existsb (Nat.eqb (String.length (drop (coord_start n) n))) valid_lengths = true.
Proof.
  unfold validate_mgrs_format.
  destruct (is_empty raw); [discriminate|].
  destruct (re_match (clean raw)) eqn:Hm; cbn [negb]; [|discriminate].
  destruct (String.length (drop (coord_start (clean raw)) (clean raw)) mod 2 =? 0) eqn:He;
    cbn [negb]; [|discriminate].
  destruct (existsb _ valid_lengths) eqn:Hl; cbn [negb]; [|discriminate].
  intros H; injection H as <-.
  repeat split; try assumption.
  now apply Nat.eqb_eq.
Qed.

(** C7. [validate_mgrs_format] is idempotent on its successful output: when
    it accepts a code and returns the normalised code [n], it accepts [n]
    too and returns [n] again. *)
Theorem validate_idempotent (raw n : string) :
  validate_mgrs_format raw = (true, n) ->
  validate_mgrs_format n = (true, n).
Proof.
  intros H.
  destruct (validate_true_inv _ _ H) as (Hn & Hm & He & Hl).
  assert (Hc : clean n = n) by (rewrite Hn; apply clean_idem).
  unfold validate_mgrs_format.
  rewrite (re_match_nonempty _ Hm), Hc, Hm, He, Hl.
  reflexivity.
Qed.

Lemma validate_idempotent_witness :
  validate_mgrs_format "23KKP4014597230" = (true, "23KKP4014597230").
Proof.
  apply (validate_idempotent " 23kkp 4014597230 ").
  vm_compute. reflexivity.
Defined.

(** ** The matcher decides the language of its pattern *)

Lemma length_app (s t : string) :
  String.length (s ++ t) = String.length s + String.length t.
Proof. induction s as [|c r IH]; simpl; [reflexivity | now rewrite IH]. Qed.

Lemma take_drop n s : take n s ++ drop n s = s.
Proof.
  revert s; induction n as [|n IH]; intros [|c r]; simpl; try reflexivity.
  now rewrite IH.
Qed.

Lemma drop_app (run tail : string) : drop (String.length run) (run ++ tail) = tail.
Proof. induction run as [|c r IH]; simpl; [now destruct tail | assumption]. Qed.

Lemma run_length_take p limit s m :
  m <= run_length p limit s ->
  all_in p (take m s) = true /\ String.length (take m s) = m /\ m <= limit.
Proof.
  revert limit s; induction m as [|m IH]; intros limit s H.
  - simpl. repeat split. lia.
  - destruct limit as [|l]; [simpl in H; lia|].
    destruct s as [|c r]; [simpl in H; lia|].
    simpl in H. destruct (p c) eqn:E; [|lia].
    destruct (IH l r) as (Ha & Hl & Hm); [lia|].
    simpl. rewrite E, Ha, Hl. repeat split. lia.
Qed.

Lemma run_length_app p limit (run tail : string) :
  all_in p run = true -> String.length run <= limit ->
  String.length run <= run_length p limit (run ++ tail).
Proof.
  revert limit; induction run as [|c r IH]; intros limit Ha Hl; simpl; [lia|].
  simpl in Ha, Hl. apply andb_true_iff in Ha as [Hc Hr].
  destruct limit as [|l]; [lia|].
  simpl. rewrite Hc. specialize (IH l Hr). lia.
Qed.

Lemma try_counts_true k s least n :
  try_counts k s least n = true ->
  exists m, least <= m /\ m <= n /\ k (drop m s) = true.
Proof.
  induction n as [|n IH]; cbn [try_counts].
  - destruct (0 <? least) eqn:El; [discriminate|].
    apply Nat.ltb_ge in El.
    destruct (k (drop 0 s)) eqn:E; [|discriminate].
    intros _. exists 0. now repeat split.
  - destruct (S n <? least) eqn:El; [discriminate|].
    apply Nat.ltb_ge in El.
    destruct (k (drop (S n) s)) eqn:E.
    + intros _. exists (S n). now repeat split.
    + intros H. destruct (IH H) as (m & H1 & H2 & H3).
      exists m. repeat split; auto.
Qed.

Lemma try_counts_intro k s least n m :
  least <= m -> m <= n -> k (drop m s) = true ->
  try_counts k s least n = true.
Proof.
  intros H1; induction n as [|n IH]; intros H2 H3.
  - assert (m = 0) by lia; subst m.
    assert (least = 0) by lia; subst least.
    simpl in *. now rewrite H3.
  - cbn [try_counts].
    destruct (S n <? least) eqn:El; [apply Nat.ltb_lt in El; lia|].
    destruct (k (drop (S n) s)) eqn:E; [reflexivity|].
    apply IH; [|assumption].
    destruct (Nat.eq_dec m (S n)) as [->|]; [congruence | lia].
Qed.

Theorem match_atoms_spec atoms s : match_atoms atoms s = true <-> matches atoms s.
Proof.
  split.
  - revert s; induction atoms as [|a rest IH]; intros s H; simpl in H.
    + now constructor.
    + apply try_counts_true in H as (m & H1 & H2 & H3).
      apply run_length_take in H2 as (Ha & Hl & Hh).
      rewrite <- (take_drop m s).
      constructor; rewrite ?Hl; auto.
  - induction 1 as [s H | a rest run tail H1 H2 H3 H4 IH]; [assumption|].
    simpl.
    apply try_counts_intro with (m := String.length run); auto.
    + now apply run_length_app.
    + now rewrite drop_app.
Qed.

(** ** The shape of a code that the pattern accepts *)

Lemma re_match_inv s :
  re_match s = true ->
  exists zone band square digits e,
    s = code_of zone band square digits e /\ well_formed zone band square digits e.
Proof.
  intros H. apply match_atoms_spec in H. unfold pattern in H.
  inversion H as [|a1 r1 zone t1 Hz1 Hz2 Hz3 H1]; subst; clear H.
  inversion H1 as [|a2 r2 band t2 Hb1 Hb2 Hb3 H2]; subst; clear H1.
  inversion H2 as [|a3 r3 square t3 Hs1 Hs2 Hs3 H3]; subst; clear H2.
  inversion H3 as [|a4 r4 digits e Hd1 Hd2 Hd3 H4]; subst; clear H3.
  inversion H4 as [e' He|]; subst; clear H4.
  cbn [lo hi cls] in *.
  destruct band as [|b [|? ?]]; simpl in Hb1, Hb2; try lia.
  simpl in Hb3. rewrite andb_true_r in Hb3.
  exists zone, b, square, digits, e.
  split; [reflexivity|].
  unfold well_formed. repeat split; auto; lia.
Qed.

Lemma re_match_intro zone band square digits e :
  well_formed zone band square digits e ->
  re_match (code_of zone band square digits e) = true.
Proof.
  intros (Hz & Hz' & Hb & Hs & Hs' & Hd & Hd' & He).
  apply match_atoms_spec. unfold pattern, code_of.
  constructor; cbn [lo hi cls]; try lia; try assumption.
  change (String band (square ++ digits ++ e))
    with (String band EmptyString ++ (square ++ digits ++ e)).
  constructor; cbn [lo hi cls]; simpl; try lia; [now rewrite Hb|].
  constructor; cbn [lo hi cls]; try lia; try assumption.
  constructor; cbn [lo hi cls]; try lia; try assumption.
  now constructor.
Qed.

(** The loop of [validate_mgrs_format] finds where the digits start. *)
Lemma coord_part_of zone band square digits e :
  well_formed zone band square digits e ->
  drop (coord_start (code_of zone band square digits e))
       (code_of zone band square digits e) = digits ++ e.
Proof.
  intros (Hz & Hz' & Hb & Hs & Hs' & Hd & Hd' & He).
  unfold code_of, coord_start.
  destruct square as [|q1 [|q2 [|q3 qr]]]; simpl in Hs; try lia.
  simpl in Hs'. rewrite andb_true_r in Hs'.
  apply andb_true_iff in Hs' as [Hq1 Hq2].
  destruct digits as [|d1 dr]; simpl in Hd; try lia.
  simpl in Hd'. apply andb_true_iff in Hd' as [Hd1 _].
  destruct zone as [|z1 [|z2 [|z3 zr]]]; simpl in Hz; try lia; simpl.
  - now rewrite (letter_not_digit _ Hq2), Hd1.
  - now rewrite (letter_not_digit _ Hq1), (letter_not_digit _ Hq2), Hd1.
Qed.

Lemma at_end_length e : at_end e = true -> String.length e <= 1.
Proof. destruct e as [|c [|? ?]]; simpl; auto; discriminate. Qed.

(** The digits that the second and third checks measure: between 2 and 11
    characters, the eleventh being the line feed that [$] tolerates. *)
Lemma coord_part_length s :
  re_match s = true ->
  2 <= String.length (drop (coord_start s) s) <= 11.
Proof.
  intros H. destruct (re_match_inv _ H) as (zone & band & square & digits & e & -> & Hw).
  rewrite (coord_part_of _ _ _ _ _ Hw), length_app.
  destruct Hw as (_ & _ & _ & _ & _ & Hd & _ & He).
  apply at_end_length in He. lia.
Qed.

Lemma even_in_valid_lengths n :
  2 <= n <= 11 -> n mod 2 = 0 ->
  existsb (Nat.eqb n) valid_lengths = true.
Proof.
  intros [H1 H2] He.
  do 12 (destruct n as [|n]; [try lia; try discriminate He; reflexivity|]).
  lia.
Qed.

Lemma msg_lengths_other n :
  msg_required <> msg_lengths n /\ msg_format <> msg_lengths n
  /\ msg_even <> msg_lengths n.
Proof. repeat split; discriminate. Qed.

(** C8. The two checks on the number of digits never disagree: when a string
    matches the pattern and the digits found in it are even in number, that
    number is one of 2, 4, 6, 8, 10; so no input at all makes
    [validate_mgrs_format] fail with the message of the third check. *)
Theorem digit_count_checks_agree (s : string) :
  (re_match s = true ->
   String.length (drop (coord_start s) s) mod 2 = 0 ->
   existsb (Nat.eqb (String.length (drop (coord_start s) s))) valid_lengths = true)
  /\ (forall n, validate_mgrs_format s <> (false, msg_lengths n)).
Proof.
  split.
  - intros Hm He. apply even_in_valid_lengths; [now apply coord_part_length | assumption].
  - intros n. unfold validate_mgrs_format.
    destruct (msg_lengths_other n) as (H1 & H2 & H3).
    destruct (is_empty s); [congruence|].
    destruct (re_match (clean s)) eqn:Hm; cbn [negb]; [|congruence].
    destruct (_ =? 0) eqn:He; cbn [negb]; [|congruence].
    apply Nat.eqb_eq in He.
    rewrite (even_in_valid_lengths _ (coord_part_length _ Hm) He).
    discriminate.
Qed.

Lemma digit_count_checks_agree_witness :
  existsb (Nat.eqb (String.length (drop (coord_start "4QFJ1234") "4QFJ1234")))
    valid_lengths = true.
Proof.
  apply (proj1 (digit_count_checks_agree "4QFJ1234")); vm_compute; reflexivity.
Defined.

(** ** The band letter *)

Lemma app_empty_r (s : string) : s ++ EmptyString = s.
Proof. induction s as [|c r IH]; simpl; [reflexivity | now rewrite IH]. Qed.

(** Where the zone number ends is fixed by the string. *)
Lemma zone_band_unique z b r z' b' r' :
  all_in isdigit z = true -> isdigit b = false ->
  all_in isdigit z' = true -> isdigit b' = false ->
  z ++ String b r = z' ++ String b' r' -> z = z' /\ b = b' /\ r = r'.
Proof.
  revert z'; induction z as [|c z IH]; intros [|c' z'] Hz Hb Hz' Hb' E;
    simpl in *.
  - injection E as -> ->. auto.
  - injection E as -> _. apply andb_true_iff in Hz' as [Hc _]. congruence.
  - injection E as -> _. apply andb_true_iff in Hz as [Hc _]. congruence.
  - injection E as -> E.
    apply andb_true_iff in Hz as [_ Hz]. apply andb_true_iff in Hz' as [_ Hz'].
    destruct (IH z' Hz Hb Hz' Hb' E) as (-> & -> & ->). auto.
Qed.

Lemma valid_length_even n :
  existsb (Nat.eqb n) valid_lengths = true -> n mod 2 = 0 /\ 2 <= n <= 10.
Proof.
  intros H.
  do 11 (destruct n as [|n]; [try discriminate H; simpl; lia|]).
  discriminate H.
Qed.

Lemma clean_nonempty raw : is_empty (clean raw) = false -> is_empty raw = false.
Proof. now destruct raw. Qed.

(** C3, as the code has it.  The band class of the pattern is the whole
    range C-X, the letters I and O included.  For an input whose normalised
    form has a zone number of one or two digits, a capital band letter, two
    capital square letters and 2, 4, 6, 8 or 10 digits, the validator accepts
    it and returns the normalised code when the band letter is in C-X, and
    refuses it with the format error when it is not (A, B, Y, Z). *)
Theorem band_letter_check (raw zone : string) (band : ascii) (square digits : string) :
  clean raw = code_of zone band square digits EmptyString ->
  1 <= String.length zone <= 2 -> all_in isdigit zone = true ->
  between "A" "Z" band = true ->
  String.length square = 2 -> all_in (between "A" "Z") square = true ->
  existsb (Nat.eqb (String.length digits)) valid_lengths = true ->
  all_in isdigit digits = true ->
  validate_mgrs_format raw =
    if between "C" "X" band then (true, clean raw) else (false, msg_format).
Proof.
  intros Hc Hz Hz' Hb Hs Hs' Hd Hd'.
  destruct (valid_length_even _ Hd) as [He Hr].
  unfold validate_mgrs_format.
  rewrite clean_nonempty
    by (rewrite Hc; unfold code_of; destruct zone; simpl in *; [lia | reflexivity]).
  destruct (between "C" "X" band) eqn:Hcx.
  - assert (Hw : well_formed zone band square digits EmptyString)
      by (unfold well_formed; repeat split; auto; lia).
    rewrite Hc, (re_match_intro _ _ _ _ _ Hw), (coord_part_of _ _ _ _ _ Hw).
    rewrite app_empty_r, He, Hd. reflexivity.
  - destruct (re_match (clean raw)) eqn:Hm; [|reflexivity].
    exfalso.
    destruct (re_match_inv _ Hm) as (z' & b' & s' & d' & e' & E & Hw').
    destruct Hw' as (_ & Hz1 & Hb1 & _).
    rewrite Hc in E. unfold code_of in E.
    apply zone_band_unique in E as (_ & <- & _); auto.
    + congruence.
    + now apply letter_not_digit.
    + apply letter_not_digit. now apply band_is_letter.
Qed.

Lemma band_letter_check_witness :
  clean " 23okp 4014 " = code_of "23" "O" "KP" "4014" EmptyString
  /\ validate_mgrs_format " 23okp 4014 " = (true, "23OKP4014").
Proof.
  split; [vm_compute; reflexivity|].
  apply (band_letter_check " 23okp 4014 " "23" "O" "KP" "4014");
    try (vm_compute; reflexivity).
  simpl; lia.
Defined.

(** C3, as the specification has it, fails: a code with the band letter I,
    and one with the band letter O, are accepted by the validator, and the
    batch converter hands the first to the conversion library (the error of
    the entry is the library's, not the validator's). *)
Lemma band_letter_I_O_accepted :
  clean "23IKP4014" = code_of "23" "I" "KP" "4014" EmptyString
  /\ validate_mgrs_format "23IKP4014" = (true, "23IKP4014")
  /\ validate_mgrs_format "4OAB12" = (true, "4OAB12")
  /\ convert_mgrs demo_toLatLon demo_round8
       [Point None (Some "23IKP4014") None None None None None]
     = PointsResponse
         [error_entry "Ponto 1" "23IKP4014" "Falha ao converter MGRS: MGRSError"
            "#3388ff" "Ponto"].
Proof. repeat split; vm_compute; reflexivity. Qed.

(** ** The loop of [convert_mgrs] *)

Section ConvertLoop.

Variable toLatLon : string -> outcome (float * float).
Variable round8 : float -> float.

Lemma is_empty_true s : is_empty s = true -> s = EmptyString.
Proof. destruct s; [reflexivity | discriminate]. Qed.

Lemma is_empty_false s : is_empty s = false -> s <> EmptyString.
Proof. destruct s; [discriminate | discriminate]. Qed.

(** One turn appends one entry, whatever the validator and the library
    do, and the entry does not depend on the list built so far. *)
Lemma convert_point_result i p :
  exists e, item_result toLatLon round8 i p e
    /\ forall out, convert_point toLatLon round8 i p out = Returned (push out e).
Proof.
  unfold convert_point.
  fold (stripped_code p) (name_of i p) (color_of p) (category_of p).
  destruct (is_empty (stripped_code p)) eqn:Hc.
  - apply is_empty_true in Hc. eexists; split; [now apply item_required|].
    intros out. now rewrite Hc.
  - apply is_empty_false in Hc.
    destruct (validate_mgrs_format (stripped_code p)) as [[|] result] eqn:Hv;
      cbn [negb].
    + unfold try_convert.
      destruct (toLatLon result) as [[la lo]|detail] eqn:Ht; cbn [bind try_except].
      * destruct (lat_in_range la && lon_in_range lo) eqn:Hr.
        -- eexists; split; [now apply (item_converted _ _ _ _ result la lo)|].
           intros out.
           apply andb_true_iff in Hr as [-> ->]. reflexivity.
        -- eexists; split; [now apply (item_out_of_range _ _ _ _ result la lo)|].
           intros out.
           apply andb_false_iff in Hr as [-> | ->]; cbn [negb orb try_except];
             [reflexivity|].
           rewrite orb_true_r. reflexivity.
      * eexists; split; [now apply (item_refused _ _ _ _ result detail)|].
        reflexivity.
    + eexists; split; [apply item_invalid; eassumption|]. reflexivity.
Qed.

(** The loop appends the entries of its points, in their order. *)
Lemma convert_loop_result points : forall i out,
  exists es, convert_loop toLatLon round8 i points out = Returned (out ++ es)%list
    /\ List.length es = List.length points
    /\ forall k p, nth_error points k = Some p ->
         exists e, nth_error es k = Some e
           /\ item_result toLatLon round8 (i + k) p e
           /\ convert_point toLatLon round8 (i + k) p [] = Returned [e].
Proof.
  induction points as [|p rest IH]; intros i out.
  - exists []. simpl. rewrite app_nil_r. repeat split.
    intros [|k] q H; discriminate H.
  - destruct (convert_point_result i p) as (e & He & Hp).
    destruct (IH (S i) (push out e)) as (es & Hl & Hn & Hk).
    exists (e :: es). cbn [convert_loop bind]. rewrite Hp. cbn [bind].
    rewrite Hl. unfold push. rewrite <- app_assoc. simpl.
    repeat split; [now rewrite Hn|].
    intros [|k] q Hq; simpl in Hq.
    + injection Hq as <-. exists e. rewrite Nat.add_0_r.
      repeat split; [assumption | apply (Hp [])].
    + destruct (Hk k q Hq) as (e' & H1 & H2 & H3).
      exists e'. replace (i + S k) with (S i + k) by lia. auto.
Qed.

Lemma convert_mgrs_result points :
  points <> [] ->
  exists out, convert_mgrs toLatLon round8 points = PointsResponse out
    /\ convert_loop toLatLon round8 0 points [] = Returned out
    /\ List.length out = List.length points
    /\ forall k p, nth_error points k = Some p ->
         exists e, nth_error out k = Some e
           /\ item_result toLatLon round8 k p e
           /\ convert_point toLatLon round8 k p [] = Returned [e].
Proof.
  intros Hne.
  destruct (convert_loop_result points 0 []) as (es & Hl & Hn & Hk).
  exists es. simpl in Hl. unfold convert_mgrs.
  destruct points as [|p rest]; [congruence|].
  rewrite Hl. cbn [bind]. auto.
Qed.

End ConvertLoop.

(** C1. The batch conversion keeps length and order: the loop returns one
    entry for each point of the batch, the entry at an index being the one
    the loop body appends for the point at that index, whether the items are
    valid or not and whatever the conversion library returns or raises; and a
    batch that is not empty is always answered with that list, never with an
    error for the whole request. *)
Theorem convert_batch_length_order
  (toLatLon : string -> outcome (float * float)) (round8 : float -> float)
  (points : list point) :
  exists out,
    convert_loop toLatLon round8 0 points [] = Returned out
    /\ List.length out = List.length points
    /\ (forall i p, nth_error points i = Some p ->
          exists e, nth_error out i = Some e
            /\ convert_point toLatLon round8 i p [] = Returned [e])
    /\ (points <> [] -> convert_mgrs toLatLon round8 points = PointsResponse out).
Proof.
  destruct (convert_loop_result toLatLon round8 points 0 []) as (es & Hl & Hn & Hk).
  exists es. simpl in Hl. repeat split; auto.
  - intros i p Hp. destruct (Hk i p Hp) as (e & H1 & _ & H3). eauto.
  - intros Hne. unfold convert_mgrs.
    destruct points as [|p rest]; [congruence|].
    now rewrite Hl.
Qed.

(** ** The entries of the answer *)

Lemma or_else_nonempty v d : is_empty d = false -> is_empty (or_else v d) = false.
Proof.
  intros Hd. unfold or_else.
  destruct v as [s|]; [|assumption].
  destruct (is_empty s) eqn:E; assumption.
Qed.

Lemma or_else_absent v d : v = Some EmptyString \/ v = None -> or_else v d = d.
Proof. now intros [-> | ->]. Qed.

Lemma item_result_fields toLatLon round8 i p e :
  item_result toLatLon round8 i p e ->
  ((has "lat" e = true /\ has "lon" e = true /\ has "error" e = false)
   \/ (has "lat" e = false /\ has "lon" e = false /\ has "error" e = true))
  /\ get "name" e = Some (Str (name_of i p))
  /\ get "color" e = Some (Str (color_of p))
  /\ get "category" e = Some (Str (category_of p)).
Proof.
  destruct 1; (split; [|now repeat split]);
    solve [ right; now repeat split | left; now repeat split ].
Qed.

(** From an answer back to the point an entry comes from. *)
Lemma convert_mgrs_entry toLatLon round8 points out i e :
  convert_mgrs toLatLon round8 points = PointsResponse out ->
  nth_error out i = Some e ->
  exists p, nth_error points i = Some p /\ item_result toLatLon round8 i p e.
Proof.
  intros Hr He.
  destruct points as [|p0 rest] eqn:Hp; [discriminate Hr|]. rewrite <- Hp in *.
  destruct (convert_mgrs_result toLatLon round8 points) as (out' & H1 & _ & Hn & Hk);
    [congruence|].
  rewrite H1 in Hr. injection Hr as ->.
  assert (Hi : i < List.length points).
  { rewrite <- Hn. apply nth_error_Some. congruence. }
  destruct (nth_error points i) as [p|] eqn:Hpi;
    [|apply nth_error_None in Hpi; lia].
  exists p. split; [reflexivity|].
  destruct (Hk i p Hpi) as (e' & H2 & H3 & _). congruence.
Qed.

(** C4. Every entry of the answer has either both [lat] and [lon] and no
    [error], or an [error] and neither [lat] nor [lon]; and it carries the
    name, colour and category of the point at its index, after the defaults
    have been filled in. *)
Theorem converted_point_invariant
  (toLatLon : string -> outcome (float * float)) (round8 : float -> float)
  (points : list point) (out : list dict) (i : nat) (e : dict) :
  convert_mgrs toLatLon round8 points = PointsResponse out ->
  nth_error out i = Some e ->
  exists p, nth_error points i = Some p
    /\ ((has "lat" e = true /\ has "lon" e = true /\ has "error" e = false)
        \/ (has "lat" e = false /\ has "lon" e = false /\ has "error" e = true))
    /\ get "name" e = Some (Str (or_else (name p) ("Ponto " ++ decimal (i + 1))))
    /\ get "color" e = Some (Str (or_else (color p) "#3388ff"))
    /\ get "category" e = Some (Str (or_else (category p) "Ponto")).
Proof.
  intros Hr He.
  destruct (convert_mgrs_entry _ _ _ _ _ _ Hr He) as (p & Hp & Hi).
  exists p. split; [assumption|].
  now apply item_result_fields in Hi.
Qed.

Lemma converted_point_invariant_witness :
  convert_mgrs demo_toLatLon demo_round8 demo_batch = PointsResponse demo_answer
  /\ nth_error demo_answer 0
     = Some (success_entry demo_round8 "Ponto 1" "23KKP4014597230"
               (-23.5)%float (-46.625)%float "#3388ff" "Ponto")
  /\ exists p, nth_error demo_batch 0 = Some p
       /\ ((has "lat" (success_entry demo_round8 "Ponto 1" "23KKP4014597230"
                         (-23.5)%float (-46.625)%float "#3388ff" "Ponto") = true
            /\ has "lon" (success_entry demo_round8 "Ponto 1" "23KKP4014597230"
                         (-23.5)%float (-46.625)%float "#3388ff" "Ponto") = true
            /\ has "error" (success_entry demo_round8 "Ponto 1" "23KKP4014597230"
                         (-23.5)%float (-46.625)%float "#3388ff" "Ponto") = false)
           \/ (has "lat" (success_entry demo_round8 "Ponto 1" "23KKP4014597230"
                         (-23.5)%float (-46.625)%float "#3388ff" "Ponto") = false
            /\ has "lon" (success_entry demo_round8 "Ponto 1" "23KKP4014597230"
                         (-23.5)%float (-46.625)%float "#3388ff" "Ponto") = false
            /\ has "error" (success_entry demo_round8 "Ponto 1" "23KKP4014597230"
                         (-23.5)%float (-46.625)%float "#3388ff" "Ponto") = true))
       /\ get "name" (success_entry demo_round8 "Ponto 1" "23KKP4014597230"
                         (-23.5)%float (-46.625)%float "#3388ff" "Ponto")
          = Some (Str (or_else (name p) ("Ponto " ++ decimal (0 + 1))))
       /\ get "color" (success_entry demo_round8 "Ponto 1" "23KKP4014597230"
                         (-23.5)%float (-46.625)%float "#3388ff" "Ponto")
          = Some (Str (or_else (color p) "#3388ff"))
       /\ get "category" (success_entry demo_round8 "Ponto 1" "23KKP4014597230"
                         (-23.5)%float (-46.625)%float "#3388ff" "Ponto")
          = Some (Str (or_else (category p) "Ponto")).
Proof.
  split; [vm_compute; reflexivity|].
  split; [reflexivity|].
  apply (converted_point_invariant demo_toLatLon demo_round8 demo_batch demo_answer);
    vm_compute; reflexivity.
Defined.

(** C10. In the answer to a batch, a name, colour or category given as the
    empty string is replaced by the same default as an absent one (the name
    by position, the colour "#3388ff", the category "Ponto"), and none of the
    three fields of an entry is ever the empty string. *)
Theorem empty_metadata_defaulted
  (toLatLon : string -> outcome (float * float)) (round8 : float -> float)
  (points : list point) (i : nat) (p : point) :
  nth_error points i = Some p ->
  exists out e,
    convert_mgrs toLatLon round8 points = PointsResponse out
    /\ nth_error out i = Some e
    /\ (name p = Some EmptyString \/ name p = None ->
        get "name" e = Some (Str ("Ponto " ++ decimal (i + 1))))
    /\ (color p = Some EmptyString \/ color p = None ->
        get "color" e = Some (Str "#3388ff"))
    /\ (category p = Some EmptyString \/ category p = None ->
        get "category" e = Some (Str "Ponto"))
    /\ get "name" e <> Some (Str EmptyString)
    /\ get "color" e <> Some (Str EmptyString)
    /\ get "category" e <> Some (Str EmptyString).
Proof.
  intros Hp.
  destruct (convert_mgrs_result toLatLon round8 points) as (out & H1 & _ & _ & Hk).
  { intros ->. destruct i; discriminate Hp. }
  destruct (Hk i p Hp) as (e & He & Hi & _).
  exists out, e. split; [assumption|]. split; [assumption|].
  apply item_result_fields in Hi as (_ & Hn & Hc & Hg).
  rewrite Hn, Hc, Hg. unfold name_of, color_of, category_of.
  repeat split.
  - intros H. now rewrite (or_else_absent _ _ H).
  - intros H. now rewrite (or_else_absent _ _ H).
  - intros H. now rewrite (or_else_absent _ _ H).
  - intros H. injection H as H. apply (f_equal is_empty) in H.
    rewrite or_else_nonempty in H; [discriminate | reflexivity].
  - intros H. injection H as H. apply (f_equal is_empty) in H.
    rewrite or_else_nonempty in H; [discriminate | reflexivity].
  - intros H. injection H as H. apply (f_equal is_empty) in H.
    rewrite or_else_nonempty in H; [discriminate | reflexivity].
Qed.

Lemma empty_metadata_defaulted_witness :
  nth_error demo_batch 1
    = Some (Point (Some "") (Some " 23K4014 ") None None (Some "red") None (Some ""))
  /\ exists out e,
    convert_mgrs demo_toLatLon demo_round8 demo_batch = PointsResponse out
    /\ nth_error out 1 = Some e
    /\ (Some EmptyString = Some EmptyString \/ Some EmptyString = None ->
        get "name" e = Some (Str ("Ponto " ++ decimal (1 + 1))))
    /\ (Some "red" = Some EmptyString \/ Some "red" = None ->
        get "color" e = Some (Str "#3388ff"))
    /\ (Some EmptyString = Some EmptyString \/ Some EmptyString = None ->
        get "category" e = Some (Str "Ponto"))
    /\ get "name" e <> Some (Str EmptyString)
    /\ get "color" e <> Some (Str EmptyString)
    /\ get "category" e <> Some (Str EmptyString).
Proof.
  split; [reflexivity|].
  apply (empty_metadata_defaulted demo_toLatLon demo_round8 demo_batch 1
           (Point (Some "") (Some " 23K4014 ") None None (Some "red") None (Some ""))).
  reflexivity.
Defined.








(** ** The loops of [export_kml] *)

Section ExportLoop.

Variable timestamp : string.
Variable now_text : nat -> string.
Variable format_6f : float -> string.
Variable format_num : float -> string.
Variable set_order : list string -> list string.

Lemma export_point_app i p kml valid_points :
  export_point now_text format_6f format_num i p (kml, valid_points)
  = ((kml ++ fst (export_point now_text format_6f format_num i p ([], [])))%list,
     (valid_points ++ (if has_coords p then [p] else []))%list).
Proof.
  unfold export_point, has_coords, push.
  destruct (lat p), (lon p); simpl; now rewrite ?app_nil_r.
Qed.

Lemma export_loop_app points : forall i kml valid_points,
  export_loop now_text format_6f format_num i points (kml, valid_points)
  = ((kml ++ marks now_text format_6f format_num i points)%list,
     (valid_points ++ filter has_coords points)%list).
Proof.
  unfold marks.
  induction points as [|p rest IH]; intros i kml vp; cbn [export_loop filter].
  - now rewrite !app_nil_r.
  - rewrite (export_point_app i p [] []).
    set (m := fst (export_point now_text format_6f format_num i p ([], []))).
    rewrite (export_point_app i p kml vp). fold m.
    set (v := if has_coords p then [p] else []).
    rewrite (IH (S i) (kml ++ m)%list (vp ++ v)%list).
    rewrite (IH (S i) ([] ++ m)%list ([] ++ v)%list).
    cbn [fst snd app]. rewrite <- !app_assoc.
    subst v. now destruct (has_coords p).
Qed.

Lemma marks_cons i p rest :
  marks now_text format_6f format_num i (p :: rest)
  = (fst (export_point now_text format_6f format_num i p ([], []))
       ++ marks now_text format_6f format_num (S i) rest)%list.
Proof.
  unfold marks at 1. cbn [export_loop].
  rewrite (export_point_app i p [] []), export_loop_app. reflexivity.
Qed.

Lemma route_coords_returns valid_points :
  forallb has_coords valid_points = true ->
  exists cs, route_coords format_num valid_points = Returned cs.
Proof.
  induction valid_points as [|p rest IH]; simpl; [now exists []|].
  intros H. apply andb_true_iff in H as [Hp Hr].
  destruct (IH Hr) as (cs & ->).
  unfold route_coord, has_coords in *.
  destruct (lat p), (lon p); try discriminate. simpl. eauto.
Qed.

Lemma forallb_filter {A : Type} (f : A -> bool) l : forallb f (filter f l) = true.
Proof.
  induction l as [|a l IH]; simpl; [reflexivity|].
  destruct (f a) eqn:E; simpl; [now rewrite E|assumption].
Qed.

(** The optional route never raises: the points it visits have their
    coordinates. *)
Lemma route_lines_returns created connect points :
  exists route,
    route_lines format_num created connect (filter has_coords points) = Returned route
    /\ (forall line, In line route ->
          line = "<Folder><name>Rota</name>" \/ line = "</Folder>"
          \/ exists rest, line = "<Placemark><name>Rota T" ++ rest).
Proof.
  unfold route_lines.
  destruct (connect && (2 <=? List.length (filter has_coords points))).
  - destruct (route_coords_returns _ (forallb_filter has_coords points)) as (cs & ->).
    cbn [bind]. eexists; split; [reflexivity|].
    intros line [<- | [<- | [<- | []]]]; auto.
    right; right. eexists. reflexivity.
  - exists []. split; [reflexivity|]. intros line [].
Qed.

(** The list [kml], piece by piece. *)
Lemma kml_items_shape points connect :
  exists route,
    route_lines format_num (now_text (List.length points)) connect
      (filter has_coords points) = Returned route
    /\ kml_items timestamp now_text format_6f format_num set_order points connect
       = Returned
           (header_lines timestamp
              ++ flat_map style_lines (set_order (used_icons points))
              ++ route_style_lines
              ++ ["<Folder><name>Pontos</name>"]
              ++ marks now_text format_6f format_num 0 points
              ++ ["</Folder>"]
              ++ route
              ++ ["</Document></kml>"])%list.
Proof.
  destruct (route_lines_returns (now_text (List.length points)) connect points)
    as (route & Hr & _).
  exists route. split; [assumption|].
  unfold kml_items. rewrite export_loop_app.
  cbn [app]. rewrite Hr. cbn [bind]. unfold push.
  rewrite <- !app_assoc. reflexivity.
Qed.

End ExportLoop.

(** ** Export of points without coordinates *)

Lemma marks_none now_text format_6f format_num points : forall i,
  (forall p, In p points -> lat p = None \/ lon p = None) ->
  marks now_text format_6f format_num i points = []
  /\ filter has_coords points = [].
Proof.
  induction points as [|p rest IH]; intros i H; [now split|].
  rewrite marks_cons. cbn [filter].
  destruct (IH (S i)) as [-> ->]; [intros q Hq; apply H; now right|].
  unfold export_point, has_coords.
  destruct (H p (or_introl eq_refl)) as [-> | ->]; [|destruct (lat p)]; now split.
Qed.

(** C2, as the code has it.  A list of points that is not empty is always
    exported, also when every point lacks [lat] or [lon]: the document then
    has the header, the style of every icon type of the request, the style of
    the route, an empty folder of points and no route.  Only the empty list
    is answered with the error. *)
Theorem export_without_coordinates
  (timestamp : string) (now_text : nat -> string)
  (format_6f format_num : float -> string)
  (set_order : list string -> list string)
  (points : list point) (connect : bool) :
  points <> [] ->
  (forall p, In p points -> lat p = None \/ lon p = None) ->
  export_kml timestamp now_text format_6f format_num set_order points connect
  = KmlResponse "application/vnd.google-earth.kml+xml"
      ("attachment; filename=marcadores_mgrs_" ++ timestamp ++ ".kml")
      (String.concat nl
         (header_lines timestamp
            ++ flat_map style_lines (set_order (used_icons points))
            ++ route_style_lines
            ++ ["<Folder><name>Pontos</name>"; "</Folder>"; "</Document></kml>"])%list).
Proof.
  intros Hne Hall.
  destruct points as [|p0 rest] eqn:Hp; [congruence|]. rewrite <- Hp in *.
  destruct (kml_items_shape timestamp now_text format_6f format_num set_order points connect)
    as (route & Hr & Hk).
  destruct (marks_none now_text format_6f format_num points 0 Hall) as [Hm Hf].
  rewrite Hm in Hk. rewrite Hf in Hr.
  assert (route = []) as ->.
  { unfold route_lines in Hr. rewrite andb_false_r in Hr. congruence. }
  unfold export_kml. rewrite Hk. rewrite Hp. reflexivity.
Qed.

Lemma export_without_coordinates_witness :
  export_kml demo_timestamp demo_now demo_format_6f demo_format_num demo_set_order
    [dropped_point; dropped_point] true
  = KmlResponse "application/vnd.google-earth.kml+xml"
      "attachment; filename=marcadores_mgrs_20250101_120000.kml"
      (String.concat nl
         (header_lines demo_timestamp
            ++ style_lines "target"
            ++ route_style_lines
            ++ ["<Folder><name>Pontos</name>"; "</Folder>"; "</Document></kml>"])%list).
Proof.
  apply (export_without_coordinates demo_timestamp demo_now demo_format_6f demo_format_num
           demo_set_order
           [dropped_point; dropped_point] true).
  - discriminate.
  - intros p [<- | [<- | []]]; left; reflexivity.
Defined.

(** C2, as the specification has it, fails: a list of one point, which has
    no coordinates, is answered with a document and not with an error. *)
Lemma export_all_dropped_is_document :
  lat dropped_point = None
  /\ export_kml demo_timestamp demo_now demo_format_6f demo_format_num demo_set_order
       [dropped_point] false
     = KmlResponse "application/vnd.google-earth.kml+xml"
         "attachment; filename=marcadores_mgrs_20250101_120000.kml"
         (String.concat nl
            (header_lines demo_timestamp
               ++ style_lines "target"
               ++ route_style_lines
               ++ ["<Folder><name>Pontos</name>"; "</Folder>"; "</Document></kml>"])%list).
Proof. split; vm_compute; reflexivity. Qed.

(** ** The display name of a marker *)

Lemma string_app_assoc (s t u : string) : (s ++ t) ++ u = s ++ (t ++ u).
Proof. induction s as [|c r IH]; simpl; [reflexivity | now rewrite IH]. Qed.

Lemma replace_app old new (s t : string) :
  replace old new (s ++ t) = replace old new s ++ replace old new t.
Proof.
  induction s as [|c r IH]; simpl; [reflexivity|].
  destruct (Ascii.eqb c old); simpl; rewrite IH; [|reflexivity].
  now rewrite string_app_assoc.
Qed.

(** The chain of replacements works character by character. *)
Lemma escape_name_cons c r :
  escape_name (String c r) = escape_name (String c EmptyString) ++ escape_name r.
Proof.
  change (String c r) with (String c EmptyString ++ r).
  unfold escape_name. now rewrite !replace_app.
Qed.

Lemma escaped_step c t :
  escaped (escape_name (String c EmptyString) ++ t) = escaped t.
Proof. destruct c as [[] [] [] [] [] [] [] []]; reflexivity. Qed.

Lemma escape_name_escaped s : escaped (escape_name s) = true.
Proof.
  induction s as [|c r IH]; [reflexivity|].
  now rewrite escape_name_cons, escaped_step.
Qed.

(** A point that has its coordinates gets its placemark. *)
Lemma marks_nth now_text format_6f format_num points : forall i k p la lo,
  nth_error points k = Some p -> lat p = Some la -> lon p = Some lo ->
  exists rest,
    In ("<Placemark><name>" ++ escape_name (name_of (i + k) p) ++ "</name>" ++ rest)
       (marks now_text format_6f format_num i points).
Proof.
  induction points as [|q rest IH]; intros i k p la lo Hk Hla Hlo.
  - destruct k; discriminate Hk.
  - rewrite marks_cons. destruct k as [|k]; simpl in Hk.
    + injection Hk as ->. rewrite Nat.add_0_r.
      unfold export_point. rewrite Hla, Hlo. cbn [fst push app].
      eexists. left. unfold placemark, name_of. reflexivity.
    + destruct (IH (S i) k p la lo Hk Hla Hlo) as (r & Hr).
      exists r. apply in_or_app. right.
      now replace (i + S k) with (S i + k) by lia.
Qed.

(** The chain of replacements gives the entity form: each character is
    replaced on its own, the entities written earlier are left alone. *)
Lemma escape_char_entity c : escape_name (String c EmptyString) = entity_of c.
Proof. destruct c as [[] [] [] [] [] [] [] []]; reflexivity. Qed.

Lemma escape_name_entities s : escape_name s = entity_text s.
Proof.
  induction s as [|c r IH]; [reflexivity|].
  rewrite escape_name_cons, escape_char_entity, IH. reflexivity.
Qed.

(** C9. Every point that is exported has a marker in the document whose
    [name] element holds the entity form of the display name (the given
    name, or the name by position): each [&], [<] and [>] of the name is
    replaced by [&amp;], [&lt;] and [&gt;] and every other character is
    kept; that text has no [<], no [>], and no [&] other than the first
    character of an entity. *)
Theorem exported_name_escaped
  (timestamp : string) (now_text : nat -> string)
  (format_6f format_num : float -> string)
  (set_order : list string -> list string)
  (points : list point) (connect : bool) (i : nat) (p : point) (la lo : float) :
  nth_error points i = Some p -> lat p = Some la -> lon p = Some lo ->
  exists items rest,
    export_kml timestamp now_text format_6f format_num set_order points connect
    = KmlResponse "application/vnd.google-earth.kml+xml"
        ("attachment; filename=marcadores_mgrs_" ++ timestamp ++ ".kml")
        (String.concat nl items)
    /\ In ("<Placemark><name>"
             ++ entity_text (or_else (name p) ("Ponto " ++ decimal (i + 1)))
             ++ "</name>" ++ rest) items
    /\ escaped (entity_text (or_else (name p) ("Ponto " ++ decimal (i + 1)))) = true.
Proof.
  intros Hp Hla Hlo.
  destruct points as [|p0 ps] eqn:E; [destruct i; discriminate Hp|].
  rewrite <- E in *.
  destruct (kml_items_shape timestamp now_text format_6f format_num set_order points connect)
    as (route & _ & Hk).
  destruct (marks_nth now_text format_6f format_num points 0 i p la lo Hp Hla Hlo)
    as (rest & Hin).
  unfold name_of in Hin. cbn [Nat.add] in Hin.
  rewrite escape_name_entities in Hin.
  eexists. exists rest. split; [|split].
  - unfold export_kml. rewrite Hk, E. reflexivity.
  - rewrite !in_app_iff. do 4 right. left. exact Hin.
  - rewrite <- escape_name_entities. apply escape_name_escaped.
Qed.

Lemma exported_name_escaped_witness :
  nth_error [dropped_point; kept_point] 1 = Some kept_point
  /\ name kept_point = Some "A<B & C>"
  /\ entity_text "A<B & C>" = "A&lt;B &amp; C&gt;"
  /\ exists items rest,
    export_kml demo_timestamp demo_now demo_format_6f demo_format_num demo_set_order
      [dropped_point; kept_point] true
    = KmlResponse "application/vnd.google-earth.kml+xml"
        "attachment; filename=marcadores_mgrs_20250101_120000.kml"
        (String.concat nl items)
    /\ In ("<Placemark><name>" ++ "A&lt;B &amp; C&gt;" ++ "</name>" ++ rest) items
    /\ escaped "A&lt;B &amp; C&gt;" = true.
Proof.
  split; [reflexivity|]. split; [reflexivity|]. split; [reflexivity|].
  apply (exported_name_escaped demo_timestamp demo_now demo_format_6f demo_format_num
           demo_set_order
           [dropped_point; kept_point] true 1 kept_point
           (-23.5)%float (-46.625)%float);
    reflexivity.
Defined.

(** ** The style definitions *)

Lemma existsb_eqb_In x (l : list string) : existsb (String.eqb x) l = true <-> In x l.
Proof.
  rewrite existsb_exists. split.
  - intros (y & Hy & E). apply String.eqb_eq in E. now subst.
  - intros H. exists x. split; [assumption | apply String.eqb_refl].
Qed.

Lemma set_add_In x y s : In y (set_add x s) <-> y = x \/ In y s.
Proof.
  unfold set_add, push.
  destruct (existsb (String.eqb x) s) eqn:E.
  - apply existsb_eqb_In in E. split; [auto|]. intros [-> | H]; assumption.
  - rewrite in_app_iff. simpl. intuition.
Qed.

Lemma set_add_NoDup x s : NoDup s -> NoDup (set_add x s).
Proof.
  intros H. unfold set_add, push.
  destruct (existsb (String.eqb x) s) eqn:E; [assumption|].
  assert (Hx : ~ In x s).
  { intros Hin. apply existsb_eqb_In in Hin. congruence. }
  apply NoDup_rev in H. rewrite <- (rev_involutive (s ++ [x])%list).
  apply NoDup_rev. rewrite rev_app_distr. simpl.
  constructor; [|assumption].
  intros Hin. apply Hx. now apply in_rev.
Qed.

(** The set of the first loop: every icon type of the request, each once. *)
Lemma used_icons_spec points :
  NoDup (used_icons points)
  /\ forall x, In x (used_icons points) <-> In x (map icon_of points).
Proof.
  unfold used_icons.
  assert (G : forall acc, NoDup acc ->
             NoDup (fold_left (fun s p => set_add (get_default (iconType p) "circle") s)
                      points acc)
             /\ forall x,
                  In x (fold_left (fun s p => set_add (get_default (iconType p) "circle") s)
                          points acc)
                  <-> In x acc \/ In x (map icon_of points)).
  { induction points as [|p rest IH]; intros acc Hacc; simpl.
    - split; [assumption|]. intros x. tauto.
    - destruct (IH _ (set_add_NoDup (get_default (iconType p) "circle") _ Hacc))
        as [H1 H2].
      split; [assumption|]. intros x. rewrite H2, set_add_In.
      unfold icon_of. intuition. }
  destruct (G [] (NoDup_nil _)) as [H1 H2].
  split; [assumption|]. intros x. rewrite H2. simpl. tauto.
Qed.

Lemma app_inv_tail_string (s s' t : string) : s ++ t = s' ++ t -> s = s'.
Proof.
  revert s'; induction s as [|c r IH]; intros [|c' r'] E; simpl in E.
  - reflexivity.
  - apply (f_equal String.length) in E. simpl in E. rewrite length_app in E. lia.
  - apply (f_equal String.length) in E. simpl in E. rewrite length_app in E. lia.
  - injection E as -> E. now rewrite (IH r' E).
Qed.

Lemma style_open_inj x y : style_open x = style_open y -> x = y.
Proof.
  unfold style_open, quoted, dquote. simpl. intros E.
  injection E as E. now do 2 apply app_inv_tail_string in E.
Qed.

Lemma count_plain (l : list string) icon :
  Forall plain_line l -> count_occ string_dec l (style_open icon) = 0.
Proof.
  intros H. apply count_occ_not_In. intros Hin.
  rewrite Forall_forall in H. exact (H _ Hin icon eq_refl).
Qed.

Ltac plain_line_tac :=
  intros ?; unfold style_open, quoted, dquote; simpl; discriminate.

Lemma header_plain timestamp : Forall plain_line (header_lines timestamp).
Proof. unfold header_lines. repeat constructor; plain_line_tac. Qed.

Lemma route_style_plain : Forall plain_line route_style_lines.
Proof. unfold route_style_lines. repeat constructor; plain_line_tac. Qed.

Lemma marks_plain now_text format_6f format_num points : forall i,
  Forall plain_line (marks now_text format_6f format_num i points).
Proof.
  induction points as [|p rest IH]; intros i; [constructor|].
  rewrite marks_cons. apply Forall_app. split; [|apply IH].
  unfold export_point. destruct (lat p), (lon p); cbn [fst push app];
    repeat constructor.
  unfold placemark. plain_line_tac.
Qed.

Lemma route_plain format_num created connect points route :
  route_lines format_num created connect (filter has_coords points) = Returned route ->
  Forall plain_line route.
Proof.
  intros Hr.
  destruct (route_lines_returns format_num created connect points) as (r & Hr' & Hf).
  rewrite Hr in Hr'. injection Hr' as <-.
  apply Forall_forall. intros line Hin.
  destruct (Hf line Hin) as [-> | [-> | (rest & ->)]]; plain_line_tac.
Qed.

Lemma count_style_lines (l : list string) icon :
  count_occ string_dec (flat_map style_lines l) (style_open icon)
  = count_occ string_dec l icon.
Proof.
  induction l as [|x l IH]; [reflexivity|].
  cbn [flat_map]. rewrite count_occ_app, IH.
  unfold style_lines.
  assert (H3 : count_occ string_dec
                 [ "<IconStyle><scale>1.3</scale><Icon><href>"
                     ++ lookup kml_icon_map x circle_url ++ "</href></Icon></IconStyle>";
                   "<LabelStyle><scale>1.2</scale></LabelStyle>";
                   "</Style>" ] (style_open icon) = 0).
  { apply count_plain. repeat constructor; plain_line_tac. }
  destruct (string_dec x icon) as [->|Hne].
  - rewrite (count_occ_cons_eq string_dec l (eq_refl icon)).
    rewrite count_occ_cons_eq by reflexivity. now rewrite H3.
  - rewrite (count_occ_cons_neq string_dec l) by assumption.
    rewrite count_occ_cons_neq; [now rewrite H3|].
    intros E. apply Hne. now apply style_open_inj.
Qed.

Lemma count_NoDup (l : list string) x :
  NoDup l -> count_occ string_dec l x = if existsb (String.eqb x) l then 1 else 0.
Proof.
  intros Hn.
  destruct (existsb (String.eqb x) l) eqn:E.
  - apply existsb_eqb_In in E.
    pose proof (proj1 (NoDup_count_occ string_dec l) Hn x).
    pose proof (proj1 (count_occ_In string_dec l x) E). lia.
  - apply count_occ_not_In. intros Hin. apply existsb_eqb_In in Hin. congruence.
Qed.

(** C6, as the code has it.  Whatever the order in which the set of icon
    types is visited, the document has exactly one style definition for each
    icon type among all the points of the request, a point with no
    [iconType] counting for [circle], whether the point is exported or
    dropped for missing coordinates; and none for any other icon type. *)
Theorem one_style_per_requested_icon
  (timestamp : string) (now_text : nat -> string)
  (format_6f format_num : float -> string)
  (set_order : list string -> list string)
  (points : list point) (connect : bool) :
  (forall s, Permutation (set_order s) s) ->
  exists items,
    kml_items timestamp now_text format_6f format_num set_order points connect
      = Returned items
    /\ forall icon,
         count_occ string_dec items (style_open icon)
         = if existsb (String.eqb icon) (map icon_of points) then 1 else 0.
Proof.
  intros Hperm.
  destruct (kml_items_shape timestamp now_text format_6f format_num set_order
              points connect) as (route & Hr & Hk).
  eexists. split; [exact Hk|].
  intros icon.
  rewrite !count_occ_app.
  rewrite (count_plain _ icon (header_plain timestamp)).
  rewrite (count_plain _ icon route_style_plain).
  rewrite (count_plain _ icon (marks_plain now_text format_6f format_num points 0)).
  rewrite (count_plain _ icon (route_plain _ _ _ _ _ Hr)).
  rewrite !(count_plain [_] icon) by (repeat constructor; plain_line_tac).
  rewrite count_style_lines.
  rewrite (proj1 (Permutation_count_occ string_dec _ _) (Hperm (used_icons points))).
  destruct (used_icons_spec points) as [Hn Hi].
  rewrite (count_NoDup _ _ Hn), !Nat.add_0_r. simpl.
  destruct (existsb (String.eqb icon) (used_icons points)) eqn:E1,
           (existsb (String.eqb icon) (map icon_of points)) eqn:E2; try reflexivity.
  - apply existsb_eqb_In, Hi, existsb_eqb_In in E1. congruence.
  - apply existsb_eqb_In, Hi, existsb_eqb_In in E2. congruence.
Qed.

Lemma demo_set_order_perm s : Permutation (demo_set_order s) s.
Proof. apply Permutation_sym, Permutation_rev. Qed.

Lemma one_style_per_requested_icon_witness :
  exists items,
    kml_items demo_timestamp demo_now demo_format_6f demo_format_num demo_set_order
      [kept_point; dropped_point] true = Returned items
    /\ forall icon,
         count_occ string_dec items (style_open icon)
         = if existsb (String.eqb icon) (map icon_of [kept_point; dropped_point])
           then 1 else 0.
Proof.
  apply (one_style_per_requested_icon demo_timestamp demo_now demo_format_6f
           demo_format_num demo_set_order [kept_point; dropped_point] true).
  apply demo_set_order_perm.
Defined.

(** C6, as the specification has it, fails: of two points, the one with the
    icon type [target] has no coordinates and is dropped, the only icon type
    among the points that remain is [circle], and the document still has the
    style definition of [target]. *)
Lemma style_of_dropped_point :
  filter has_coords [kept_point; dropped_point] = [kept_point]
  /\ map icon_of (filter has_coords [kept_point; dropped_point]) = ["circle"]
  /\ icon_of dropped_point = "target"
  /\ exists items,
       kml_items demo_timestamp demo_now demo_format_6f demo_format_num demo_set_order
         [kept_point; dropped_point] false = Returned items
       /\ count_occ string_dec items (style_open "target") = 1.
Proof.
  repeat split; try reflexivity.
  eexists. split; [vm_compute; reflexivity|]. vm_compute. reflexivity.
Qed.

(* ================================================================= *)
(** * Further properties of the validator *)

Lemma clean_nonspace s : all_in nonspace (clean s) = true.
Proof.
  unfold clean. induction s as [|c r IH]; simpl; [reflexivity|].
  rewrite isspace_upper_char.
  destruct (isspace c) eqn:E; [assumption|].
  simpl. unfold nonspace at 1. now rewrite isspace_upper_char, E.
Qed.

Lemma all_in_app p (s t : string) : all_in p (s ++ t) = all_in p s && all_in p t.
Proof.
  induction s as [|c r IH]; simpl; [reflexivity|].
  now rewrite IH, andb_assoc.
Qed.

(** In a code without blanks, [$] has matched at the very end. *)
Lemma code_end_empty zone band square digits e :
  all_in nonspace (code_of zone band square digits e) = true ->
  at_end e = true -> e = EmptyString.
Proof.
  unfold code_of. rewrite all_in_app. simpl. rewrite !all_in_app.
  intros H He.
  destruct e as [|c [|? ?]]; [reflexivity| |discriminate He].
  simpl in He. apply Ascii.eqb_eq in He. subst c.
  rewrite !andb_true_iff in H. destruct H as (_ & _ & _ & _ & H).
  discriminate H.
Qed.

(** The verdict on a code of the grammar, from the number of its digits. *)
Lemma validate_grammar raw zone band square digits :
  clean raw = code_of zone band square digits EmptyString ->
  well_formed zone band square digits EmptyString ->
  validate_mgrs_format raw =
    if String.length digits mod 2 =? 0 then (true, clean raw) else (false, msg_even).
Proof.
  intros Hc Hw.
  unfold validate_mgrs_format.
  rewrite clean_nonempty.
  2:{ rewrite Hc. destruct Hw as ([Hz _] & _). unfold code_of.
      destruct zone; simpl in *; [lia | reflexivity]. }
  rewrite Hc, (re_match_intro _ _ _ _ _ Hw), (coord_part_of _ _ _ _ _ Hw).
  rewrite app_empty_r. cbn [negb].
  destruct (String.length digits mod 2 =? 0) eqn:He; cbn [negb]; [|reflexivity].
  apply Nat.eqb_eq in He.
  destruct Hw as (_ & _ & _ & _ & _ & Hd & _).
  rewrite even_in_valid_lengths; [reflexivity | lia | assumption].
Qed.

(** X1. On an input of ASCII characters, the validator accepts exactly the
    codes of the grammar: it returns a normalised code if and only if that
    code is the input in capitals and without blanks, and is made of one or
    two digits, a letter of C-X, two capital letters and 2, 4, 6, 8 or 10
    digits, with nothing after them. *)
Theorem validate_accepts_iff (raw n : string) :
  ascii_text raw = true ->
  (validate_mgrs_format raw = (true, n) <->
   n = clean raw
   /\ exists zone band square digits,
        n = code_of zone band square digits EmptyString
        /\ well_formed zone band square digits EmptyString
        /\ existsb (Nat.eqb (String.length digits)) valid_lengths = true).
Proof.
  intros _. split.
  - intros H. destruct (validate_true_inv _ _ H) as (Hn & Hm & He & Hl).
    split; [assumption|].
    destruct (re_match_inv _ Hm) as (zone & band & square & digits & e & E & Hw).
    assert (e = EmptyString) as ->.
    { apply (code_end_empty zone band square digits).
      - rewrite <- E, Hn. apply clean_nonspace.
      - now destruct Hw as (_ & _ & _ & _ & _ & _ & _ & He'). }
    exists zone, band, square, digits. repeat split; try apply Hw; [assumption|].
    rewrite E, (coord_part_of _ _ _ _ _ Hw), app_empty_r in Hl. exact Hl.
  - intros (Hn & zone & band & square & digits & E & Hw & Hl).
    rewrite Hn in E.
    rewrite (validate_grammar raw zone band square digits E Hw).
    destruct (valid_length_even _ Hl) as [-> _]. now rewrite Hn.
Qed.

Lemma validate_accepts_iff_witness :
  ascii_text " 23kkp 4014597230 " = true
  /\ validate_mgrs_format " 23kkp 4014597230 " = (true, "23KKP4014597230")
  /\ "23KKP4014597230" = clean " 23kkp 4014597230 "
  /\ exists zone band square digits,
       "23KKP4014597230" = code_of zone band square digits EmptyString
       /\ well_formed zone band square digits EmptyString
       /\ existsb (Nat.eqb (String.length digits)) valid_lengths = true.
Proof.
  split; [reflexivity|]. split; [reflexivity|].
  apply (proj1 (validate_accepts_iff " 23kkp 4014597230 " "23KKP4014597230" eq_refl)).
  reflexivity.
Defined.

(** X2. A code of the grammar with an odd number of digits is refused with
    the message of the second check. *)
Theorem validate_odd_digits_refused (raw zone : string) (band : ascii)
  (square digits : string) :
  clean raw = code_of zone band square digits EmptyString ->
  well_formed zone band square digits EmptyString ->
  String.length digits mod 2 = 1 ->
  validate_mgrs_format raw = (false, msg_even).
Proof.
  intros Hc Hw Ho.
  rewrite (validate_grammar raw zone band square digits Hc Hw), Ho.
  reflexivity.
Qed.

Lemma validate_odd_digits_refused_witness :
  clean "4qfj 123" = code_of "4" "Q" "FJ" "123" EmptyString
  /\ validate_mgrs_format "4qfj 123" = (false, msg_even).
Proof.
  split; [reflexivity|].
  apply (validate_odd_digits_refused "4qfj 123" "4" "Q" "FJ" "123");
    try reflexivity.
  unfold well_formed. simpl. repeat split; try reflexivity; lia.
Defined.

(** X3. The message that a code is required answers the empty string and
    nothing else; an input of blanks only is refused with the format
    error. *)
Theorem validate_required_iff_empty (raw : string) :
  (validate_mgrs_format raw = (false, msg_required) <-> raw = EmptyString)
  /\ (raw <> EmptyString -> clean raw = EmptyString ->
      validate_mgrs_format raw = (false, msg_format)).
Proof.
  split; [split|].
  - unfold validate_mgrs_format.
    destruct raw as [|c r]; [reflexivity|]. cbn [is_empty].
    destruct (re_match _); cbn [negb]; [|discriminate].
    destruct (_ =? 0); cbn [negb]; [|discriminate].
    destruct (existsb _ _); cbn [negb]; [discriminate|].
    intros H. injection H as H. discriminate H.
  - intros ->. reflexivity.
  - intros Hne Hc. unfold validate_mgrs_format.
    destruct raw as [|c r]; [congruence|]. cbn [is_empty].
    now rewrite Hc.
Qed.

(** X4. The verdict depends on the normalised code alone: an input whose
    normalised form is not empty gets the verdict of that form, so the case
    of the letters and the blanks of the input change nothing, for a
    refusal as for an acceptance. *)
Theorem validate_of_clean (raw : string) :
  is_empty (clean raw) = false ->
  validate_mgrs_format raw = validate_mgrs_format (clean raw).
Proof.
  intros H. unfold validate_mgrs_format.
  rewrite H, (clean_nonempty _ H), clean_idem. reflexivity.
Qed.

Lemma validate_of_clean_witness :
  is_empty (clean " 23k 4014 ") = false
  /\ validate_mgrs_format " 23k 4014 " = validate_mgrs_format "23K4014".
Proof.
  split; [reflexivity|].
  apply (validate_of_clean " 23k 4014 "). reflexivity.
Defined.

(* ================================================================= *)
(** * Further properties of the batch conversion *)

Section ConvertFacts.

Variable toLatLon : string -> outcome (float * float).
Variable round8 : float -> float.

(** The entry of a point of the batch, with the case that produced it. *)
Lemma entry_at points i p :
  nth_error points i = Some p ->
  exists out e,
    convert_mgrs toLatLon round8 points = PointsResponse out
    /\ nth_error out i = Some e
    /\ item_result toLatLon round8 i p e
    /\ convert_point toLatLon round8 i p [] = Returned [e].
Proof.
  intros Hp.
  destruct (convert_mgrs_result toLatLon round8 points) as (out & H1 & _ & _ & Hk).
  { intros ->. destruct i; discriminate Hp. }
  destruct (Hk i p Hp) as (e & He & Hi & Hc).
  exists out, e. auto.
Qed.

(** The entries of a loop do not depend on the list it starts from. *)
Lemma convert_loop_entries points : forall i,
  exists es, forall out,
    convert_loop toLatLon round8 i points out = Returned (out ++ es)%list.
Proof.
  induction points as [|p rest IH]; intros i.
  - exists []. intros out. simpl. now rewrite app_nil_r.
  - destruct (convert_point_result toLatLon round8 i p) as (e & _ & Hp).
    destruct (IH (S i)) as (es & Hes).
    exists (e :: es). intros out. cbn [convert_loop].
    rewrite Hp. cbn [bind]. rewrite Hes. unfold push.
    now rewrite <- app_assoc.
Qed.

Lemma convert_loop_app a : forall b i out,
  convert_loop toLatLon round8 i (a ++ b)%list out
  = (out' <- convert_loop toLatLon round8 i a out ;;
     convert_loop toLatLon round8 (i + List.length a) b out').
Proof.
  induction a as [|p a IH]; intros b i out.
  - simpl. now rewrite Nat.add_0_r.
  - cbn [app convert_loop List.length].
    destruct (convert_point toLatLon round8 i p out) as [o|e]; cbn [bind];
      [|reflexivity].
    rewrite IH. now replace (S i + List.length a) with (i + S (List.length a)) by lia.
Qed.

End ConvertFacts.

Lemma lstrip_blank s : all_in isspace s = true -> lstrip s = EmptyString.
Proof.
  induction s as [|c r IH]; simpl; [reflexivity|].
  intros H. apply andb_true_iff in H as [-> Hr]. auto.
Qed.

Lemma strip_blank s : all_in isspace s = true -> strip s = EmptyString.
Proof. intros H. unfold strip. now rewrite lstrip_blank. Qed.

(** X5. An entry of the answer that has coordinates comes from a point whose
    stripped code the validator accepted and the library converted to a
    latitude within -90..90 and a longitude within -180..180: its [mgrs] is
    the normalised code, and its [lat] and [lon] are the two results after
    rounding. *)
Theorem success_entry_sound
  (toLatLon : string -> outcome (float * float)) (round8 : float -> float)
  (points : list point) (out : list dict) (i : nat) (e : dict) :
  convert_mgrs toLatLon round8 points = PointsResponse out ->
  nth_error out i = Some e ->
  has "lat" e = true ->
  exists p n la lo,
    nth_error points i = Some p
    /\ validate_mgrs_format (strip (or_else (mgrs p) EmptyString)) = (true, n)
    /\ toLatLon n = Returned (la, lo)
    /\ lat_in_range la = true /\ lon_in_range lo = true
    /\ get "mgrs" e = Some (Str n)
    /\ get "lat" e = Some (Num (round8 la))
    /\ get "lon" e = Some (Num (round8 lo)).
Proof.
  intros Hr He Hlat.
  destruct (convert_mgrs_entry _ _ _ _ _ _ Hr He) as (p & Hp & Hi).
  destruct Hi as [Hc | r Hc Hv | n d Hc Hv Ht | n la lo Hc Hv Ht Hg
                 | n la lo Hc Hv Ht Hg]; try discriminate Hlat.
  apply andb_true_iff in Hg as [Hla Hlo].
  exists p, n, la, lo. repeat split; assumption.
Qed.

Lemma success_entry_sound_witness :
  convert_mgrs demo_toLatLon demo_round8 demo_batch = PointsResponse demo_answer
  /\ exists p n la lo,
    nth_error demo_batch 0 = Some p
    /\ validate_mgrs_format (strip (or_else (mgrs p) EmptyString)) = (true, n)
    /\ demo_toLatLon n = Returned (la, lo)
    /\ lat_in_range la = true /\ lon_in_range lo = true
    /\ get "mgrs" (success_entry demo_round8 "Ponto 1" "23KKP4014597230"
                     (-23.5)%float (-46.625)%float "#3388ff" "Ponto") = Some (Str n)
    /\ get "lat" (success_entry demo_round8 "Ponto 1" "23KKP4014597230"
                     (-23.5)%float (-46.625)%float "#3388ff" "Ponto")
       = Some (Num (demo_round8 la))
    /\ get "lon" (success_entry demo_round8 "Ponto 1" "23KKP4014597230"
                     (-23.5)%float (-46.625)%float "#3388ff" "Ponto")
       = Some (Num (demo_round8 lo)).
Proof.
  split; [vm_compute; reflexivity|].
  apply (success_entry_sound demo_toLatLon demo_round8 demo_batch demo_answer 0);
    vm_compute; reflexivity.
Defined.

(** X6. When the library raises on an accepted code, the item is answered
    with an entry that has no coordinates, the normalised code as [mgrs],
    and the text of the exception after "Falha ao converter MGRS: " as
    [error]. *)
Theorem library_error_entry
  (toLatLon : string -> outcome (float * float)) (round8 : float -> float)
  (points : list point) (i : nat) (p : point) (n detail : string) :
  nth_error points i = Some p ->
  validate_mgrs_format (strip (or_else (mgrs p) EmptyString)) = (true, n) ->
  toLatLon n = Raised detail ->
  exists out e,
    convert_mgrs toLatLon round8 points = PointsResponse out
    /\ nth_error out i = Some e
    /\ get "mgrs" e = Some (Str n)
    /\ get "error" e = Some (Str ("Falha ao converter MGRS: " ++ detail))
    /\ has "lat" e = false /\ has "lon" e = false.
Proof.
  intros Hp Hv Ht.
  destruct (entry_at toLatLon round8 points i p Hp) as (out & e & H1 & H2 & Hi & _).
  exists out, e. split; [assumption|]. split; [assumption|].
  fold (stripped_code p) in Hv.
  destruct Hi as [Hc | r Hc Hv' | n' d Hc Hv' Ht' | n' la lo Hc Hv' Ht' Hg
                 | n' la lo Hc Hv' Ht' Hg].
  - rewrite Hc in Hv. discriminate Hv.
  - congruence.
  - assert (n' = n) by congruence. subst n'.
    assert (d = detail) by congruence. subst d. now repeat split.
  - assert (n' = n) by congruence. subst n'. congruence.
  - assert (n' = n) by congruence. subst n'. congruence.
Qed.

Lemma library_error_entry_witness :
  nth_error demo_batch 3
    = Some (Point (Some "b") (Some "31UDQ48") None None (Some "") None (Some "c"))
  /\ exists out e,
    convert_mgrs demo_toLatLon demo_round8 demo_batch = PointsResponse out
    /\ nth_error out 3 = Some e
    /\ get "mgrs" e = Some (Str "31UDQ48")
    /\ get "error" e = Some (Str ("Falha ao converter MGRS: " ++ "MGRSError"))
    /\ has "lat" e = false /\ has "lon" e = false.
Proof.
  split; [reflexivity|].
  apply (library_error_entry demo_toLatLon demo_round8 demo_batch 3
           (Point (Some "b") (Some "31UDQ48") None None (Some "") None (Some "c")));
    reflexivity.
Defined.

(** X7. When the library returns a latitude outside -90..90 or a longitude
    outside -180..180 (a NaN is outside both), the item is answered like a
    failed conversion: no coordinates, the normalised code as [mgrs], and
    the error "Falha ao converter MGRS: Coordinates out of valid range". *)
Theorem out_of_range_entry
  (toLatLon : string -> outcome (float * float)) (round8 : float -> float)
  (points : list point) (i : nat) (p : point) (n : string) (la lo : float) :
  nth_error points i = Some p ->
  validate_mgrs_format (strip (or_else (mgrs p) EmptyString)) = (true, n) ->
  toLatLon n = Returned (la, lo) ->
  lat_in_range la && lon_in_range lo = false ->
  exists out e,
    convert_mgrs toLatLon round8 points = PointsResponse out
    /\ nth_error out i = Some e
    /\ get "mgrs" e = Some (Str n)
    /\ get "error" e
       = Some (Str "Falha ao converter MGRS: Coordinates out of valid range")
    /\ has "lat" e = false /\ has "lon" e = false.
Proof.
  intros Hp Hv Ht Hg.
  destruct (entry_at toLatLon round8 points i p Hp) as (out & e & H1 & H2 & Hi & _).
  exists out, e. split; [assumption|]. split; [assumption|].
  fold (stripped_code p) in Hv.
  destruct Hi as [Hc | r Hc Hv' | n' d Hc Hv' Ht' | n' la' lo' Hc Hv' Ht' Hg'
                 | n' la' lo' Hc Hv' Ht' Hg'].
  - rewrite Hc in Hv. discriminate Hv.
  - congruence.
  - assert (n' = n) by congruence. subst n'. congruence.
  - assert (n' = n) by congruence. subst n'. now repeat split.
  - assert (n' = n) by congruence. subst n'.
    assert (E : (la', lo') = (la, lo)) by congruence. injection E as -> ->.
    congruence.
Qed.

Lemma out_of_range_entry_witness :
  nth_error demo_batch 2
    = Some (Point (Some "a") (Some "31udq4825") None None (Some "red") None (Some ""))
  /\ lat_in_range 95 && lon_in_range 3 = false
  /\ lat_in_range nan = false /\ lon_in_range nan = false
  /\ exists out e,
    convert_mgrs demo_toLatLon demo_round8 demo_batch = PointsResponse out
    /\ nth_error out 2 = Some e
    /\ get "mgrs" e = Some (Str "31UDQ4825")
    /\ get "error" e
       = Some (Str "Falha ao converter MGRS: Coordinates out of valid range")
    /\ has "lat" e = false /\ has "lon" e = false.
Proof.
  split; [reflexivity|]. split; [reflexivity|].
  split; [reflexivity|]. split; [reflexivity|].
  apply (out_of_range_entry demo_toLatLon demo_round8 demo_batch 2
           (Point (Some "a") (Some "31udq4825") None None (Some "red") None (Some ""))
           "31UDQ4825" 95%float 3%float);
    reflexivity.
Defined.

(** X8. A point whose code is absent, empty or made only of the blanks of
    ASCII (tab, line feed, vertical tab, form feed, carriage return, the
    separators 28 to 31, space) is answered with the error "MGRS code is
    required" and an empty [mgrs], without coordinates, whatever the
    library would do. *)
Theorem blank_code_entry
  (toLatLon : string -> outcome (float * float)) (round8 : float -> float)
  (points : list point) (i : nat) (p : point) :
  nth_error points i = Some p ->
  all_in isspace (or_else (mgrs p) EmptyString) = true ->
  exists out,
    convert_mgrs toLatLon round8 points = PointsResponse out
    /\ nth_error out i
       = Some (error_entry (or_else (name p) ("Ponto " ++ decimal (i + 1)))
                 EmptyString msg_required
                 (or_else (color p) "#3388ff") (or_else (category p) "Ponto")).
Proof.
  intros Hp Hb.
  destruct (entry_at toLatLon round8 points i p Hp) as (out & e & H1 & H2 & _ & Hc).
  exists out. split; [assumption|].
  rewrite H2. f_equal.
  unfold convert_point in Hc. rewrite (strip_blank _ Hb) in Hc.
  cbn [is_empty] in Hc. unfold push in Hc. simpl in Hc.
  now injection Hc as <-.
Qed.

Lemma blank_code_entry_witness :
  all_in isspace "  " = true
  /\ exists out,
    convert_mgrs demo_toLatLon demo_round8
      [Point (Some "a") (Some "  ") None None None None None] = PointsResponse out
    /\ nth_error out 0
       = Some (error_entry "a" EmptyString msg_required "#3388ff" "Ponto").
Proof.
  split; [reflexivity|].
  apply (blank_code_entry demo_toLatLon demo_round8
           [Point (Some "a") (Some "  ") None None None None None] 0
           (Point (Some "a") (Some "  ") None None None None None));
    reflexivity.
Defined.

(** X9. The answer to two batches put end to end is the answer to the first
    followed by the entries of the second, the points of the second being
    numbered after those of the first. *)
Theorem convert_batches_concatenate
  (toLatLon : string -> outcome (float * float)) (round8 : float -> float)
  (a b : list point) :
  exists out_a out_b,
    convert_loop toLatLon round8 0 a [] = Returned out_a
    /\ convert_loop toLatLon round8 (List.length a) b [] = Returned out_b
    /\ convert_loop toLatLon round8 0 (a ++ b)%list [] = Returned (out_a ++ out_b)%list
    /\ (a <> [] ->
        convert_mgrs toLatLon round8 (a ++ b)%list = PointsResponse (out_a ++ out_b)%list).
Proof.
  destruct (convert_loop_entries toLatLon round8 a 0) as (ea & Ha).
  destruct (convert_loop_entries toLatLon round8 b (List.length a)) as (eb & Hb).
  exists ea, eb.
  assert (H : convert_loop toLatLon round8 0 (a ++ b)%list [] = Returned (ea ++ eb)%list).
  { rewrite convert_loop_app, Ha. cbn [bind app]. now rewrite Hb. }
  repeat split.
  - apply (Ha []).
  - apply (Hb []).
  - exact H.
  - intros Hne. unfold convert_mgrs.
    destruct a as [|p a']; [congruence|].
    cbn [app] in *. now rewrite H.
Qed.

(** X10. A point that has a name is answered with the same entry wherever
    it stands in a batch and whatever the other points are: only the
    default name depends on the position. *)
Theorem named_point_entry_fixed
  (toLatLon : string -> outcome (float * float)) (round8 : float -> float)
  (points points' : list point) (i j : nat) (p : point) (s : string) :
  nth_error points i = Some p ->
  nth_error points' j = Some p ->
  name p = Some s -> s <> EmptyString ->
  exists out out' e,
    convert_mgrs toLatLon round8 points = PointsResponse out
    /\ convert_mgrs toLatLon round8 points' = PointsResponse out'
    /\ nth_error out i = Some e
    /\ nth_error out' j = Some e.
Proof.
  intros Hi Hj Hn Hs.
  destruct (entry_at toLatLon round8 points i p Hi) as (out & e & H1 & H2 & _ & Hc).
  destruct (entry_at toLatLon round8 points' j p Hj) as (out' & e' & H1' & H2' & _ & Hc').
  exists out, out', e. repeat split; try assumption.
  rewrite H2'. f_equal.
  assert (E : convert_point toLatLon round8 j p [] = convert_point toLatLon round8 i p []).
  { unfold convert_point. rewrite Hn. unfold or_else.
    destruct s; [congruence | reflexivity]. }
  rewrite E, Hc in Hc'. now injection Hc' as ->.
Qed.

Lemma named_point_entry_fixed_witness :
  nth_error demo_batch 2
    = Some (Point (Some "a") (Some "31udq4825") None None (Some "red") None (Some ""))
  /\ exists out out' e,
    convert_mgrs demo_toLatLon demo_round8 demo_batch = PointsResponse out
    /\ convert_mgrs demo_toLatLon demo_round8
         [Point (Some "a") (Some "31udq4825") None None (Some "red") None (Some "")]
       = PointsResponse out'
    /\ nth_error out 2 = Some e
    /\ nth_error out' 0 = Some e.
Proof.
  split; [reflexivity|].
  apply (named_point_entry_fixed demo_toLatLon demo_round8 demo_batch
           [Point (Some "a") (Some "31udq4825") None None (Some "red") None (Some "")]
           2 0
           (Point (Some "a") (Some "31udq4825") None None (Some "red") None (Some ""))
           "a");
    try reflexivity.
  discriminate.
Defined.

(** X11. The only error of the conversion handler is the one for a batch
    with no point, with the status 400; the status 500 of the outer handler
    is never returned for points of the data model. *)
Theorem convert_error_iff_empty
  (toLatLon : string -> outcome (float * float)) (round8 : float -> float)
  (points : list point) (status : nat) (error : string) :
  convert_mgrs toLatLon round8 points = ErrorResponse status error
  <-> points = [] /\ status = 400 /\ error = "No points provided".
Proof.
  split.
  - destruct points as [|p rest].
    + cbn. intros H. injection H as <- <-. auto.
    + destruct (convert_mgrs_result toLatLon round8 (p :: rest)) as (out & H & _);
        [discriminate|].
      rewrite H. discriminate.
  - intros (-> & -> & ->). reflexivity.
Qed.

(* ================================================================= *)
(** * Further properties of the export *)

Section ExportFacts.

Variable timestamp : string.
Variable now_text : nat -> string.
Variable format_6f : float -> string.
Variable format_num : float -> string.
Variable set_order : list string -> list string.

Lemma marks_length points : forall i,
  List.length (marks now_text format_6f format_num i points)
  = List.length (filter has_coords points).
Proof.
  induction points as [|p rest IH]; intros i; [reflexivity|].
  rewrite marks_cons, List.length_app, IH. cbn [filter].
  unfold export_point, has_coords.
  destruct (lat p), (lon p); reflexivity.
Qed.

(** Every item of the second loop is the placemark of a point. *)
Lemma marks_are_placemarks points : forall i,
  Forall (fun line => exists rest, line = "<Placemark><name>" ++ rest)
    (marks now_text format_6f format_num i points).
Proof.
  induction points as [|p rest IH]; intros i; [constructor|].
  rewrite marks_cons. apply Forall_app. split; [|apply IH].
  unfold export_point. destruct (lat p), (lon p); cbn [fst push app];
    repeat constructor.
  unfold placemark. eexists. reflexivity.
Qed.

(** The placemark of a point that has its coordinates, in full. *)
Lemma marks_nth_full points : forall i k p la lo,
  nth_error points k = Some p -> lat p = Some la -> lon p = Some lo ->
  In (placemark format_num
        (escape_name (or_else (name p) ("Ponto " ++ decimal (i + k + 1))))
        (description_of format_6f
           (replace "&" "&amp;" (or_else (mgrs p) EmptyString))
           (replace "&" "&amp;" (or_else (category p) "Ponto"))
           (lookup icon_names (icon_of p) "Padrão")
           (get_default (color p) "#3388ff") la lo (now_text (i + k)))
        (icon_of p) la lo)
     (marks now_text format_6f format_num i points).
Proof.
  induction points as [|q rest IH]; intros i k p la lo Hk Hla Hlo.
  - destruct k; discriminate Hk.
  - rewrite marks_cons. destruct k as [|k]; simpl in Hk.
    + injection Hk as ->. rewrite Nat.add_0_r.
      unfold export_point. rewrite Hla, Hlo. cbn [fst push app].
      left. reflexivity.
    + apply in_or_app. right.
      replace (i + S k) with (S i + k) by lia.
      now apply IH.
Qed.

Lemma route_coords_map valid_points :
  forallb has_coords valid_points = true ->
  route_coords format_num valid_points
  = Returned (map (coord_text format_num) valid_points).
Proof.
  induction valid_points as [|p rest IH]; [reflexivity|].
  cbn [forallb]. intros H. apply andb_true_iff in H as [Hp Hr].
  cbn [route_coords map]. rewrite (IH Hr).
  unfold route_coord, coord_text, has_coords in *.
  destruct (lat p), (lon p); try discriminate. reflexivity.
Qed.

End ExportFacts.

(** X12. The only error of the export handler is the one for an empty list
    of points, with the status 400: every other list is answered with a KML
    document, under the content type of KML and a file name that carries the
    timestamp; the status 500 is never returned for points of the data
    model. *)
Theorem export_error_iff_empty
  (timestamp : string) (now_text : nat -> string)
  (format_6f format_num : float -> string)
  (set_order : list string -> list string)
  (points : list point) (connect : bool) :
  (forall status error,
     export_kml timestamp now_text format_6f format_num set_order points connect
       = ErrorResponse status error
     <-> points = [] /\ status = 400 /\ error = "No points to export")
  /\ (points <> [] ->
      exists document,
        export_kml timestamp now_text format_6f format_num set_order points connect
        = KmlResponse "application/vnd.google-earth.kml+xml"
            ("attachment; filename=marcadores_mgrs_" ++ timestamp ++ ".kml")
            document).
Proof.
  assert (G : points <> [] ->
              exists document,
                export_kml timestamp now_text format_6f format_num set_order points connect
                = KmlResponse "application/vnd.google-earth.kml+xml"
                    ("attachment; filename=marcadores_mgrs_" ++ timestamp ++ ".kml")
                    document).
  { intros Hne.
    destruct (kml_items_shape timestamp now_text format_6f format_num set_order
                points connect) as (route & _ & Hk).
    unfold export_kml. rewrite Hk.
    destruct points; [congruence|]. eexists. reflexivity. }
  split; [|exact G].
  intros status error. split.
  - destruct points as [|p rest].
    + cbn. intros H. injection H as <- <-. auto.
    + destruct G as (doc & ->); discriminate.
  - intros (-> & -> & ->). reflexivity.
Qed.

(** X13. The second loop of the export keeps the items it starts from, adds
    one placemark for each point that has both coordinates, and collects
    exactly those points, in the order of the request, as the valid
    points. *)
Theorem export_loop_keeps_valid_points
  (now_text : nat -> string) (format_6f format_num : float -> string)
  (i : nat) (points : list point) (kml : list string) (valid_points : list point) :
  exists added,
    export_loop now_text format_6f format_num i points (kml, valid_points)
    = ((kml ++ added)%list, (valid_points ++ filter has_coords points)%list)
    /\ List.length added = List.length (filter has_coords points)
    /\ Forall (fun line => exists rest, line = "<Placemark><name>" ++ rest) added.
Proof.
  exists (marks now_text format_6f format_num i points).
  split; [apply export_loop_app|].
  split; [apply marks_length | apply marks_are_placemarks].
Qed.



(** X14. The document of an export, item by item: the header with the
    timestamp, four lines for each icon type of the request, the style of the
    route, the folder of the placemarks, then, only when [connectRoute] is
    set and at least two points have their coordinates, a folder with one
    line through those points in the order of the request, and the closing
    tags. *)
Theorem kml_document_structure
  (timestamp : string) (now_text : nat -> string)
  (format_6f format_num : float -> string)
  (set_order : list string -> list string)
  (points : list point) (connect : bool) :
  kml_items timestamp now_text format_6f format_num set_order points connect
  = Returned
      (header_lines timestamp
         ++ flat_map style_lines (set_order (used_icons points))
         ++ route_style_lines
         ++ ["<Folder><name>Pontos</name>"]
         ++ marks now_text format_6f format_num 0 points
         ++ ["</Folder>"]
         ++ (if connect && (2 <=? List.length (filter has_coords points))
             then
               [ "<Folder><name>Rota</name>";
                 ("<Placemark><name>Rota Tática</name>"
                    ++ "<description>"
                    ++ route_description (filter has_coords points)
                         (now_text (List.length points))
                    ++ "</description>"
                    ++ "<styleUrl>#routeStyle</styleUrl>"
                    ++ "<LineString><tessellate>1</tessellate><altitudeMode>clampToGround</altitudeMode>"
                    ++ "<coordinates>"
                    ++ String.concat " "
                         (map (coord_text format_num) (filter has_coords points))
                    ++ "</coordinates></LineString></Placemark>")%string;
                 "</Folder>" ]
             else [])
         ++ ["</Document></kml>"])%list.
Proof.
  destruct (kml_items_shape timestamp now_text format_6f format_num set_order
              points connect) as (route & Hr & Hk).
  rewrite Hk. do 7 f_equal.
  unfold route_lines in Hr.
  destruct (connect && (2 <=? List.length (filter has_coords points))).
  - rewrite (route_coords_map format_num _ (forallb_filter has_coords points)) in Hr.
    cbn [bind] in Hr. now injection Hr as <-.
  - now injection Hr as <-.
Qed.


(** X16. Every point that has both coordinates is in the document as one
    placemark, made of its escaped name, a description with its code and
    category (their ampersands escaped), the label of its icon, its colour,
    its coordinates and the time of the export, a reference to the style of
    its icon type, and its position; and whatever the order in which the set
    of icon types is visited, the style that the placemark refers to is
    defined in the document. *)
Theorem marker_and_its_style
  (timestamp : string) (now_text : nat -> string)
  (format_6f format_num : float -> string)
  (set_order : list string -> list string)
  (points : list point) (connect : bool) (i : nat) (p : point) (la lo : float) :
  (forall s, Permutation (set_order s) s) ->
  nth_error points i = Some p -> lat p = Some la -> lon p = Some lo ->
  exists items,
    kml_items timestamp now_text format_6f format_num set_order points connect
      = Returned items
    /\ In ("<Placemark><name>"
             ++ escape_name (or_else (name p) ("Ponto " ++ decimal (i + 1)))
             ++ "</name>"
             ++ "<description>"
             ++ description_of format_6f
                  (replace "&" "&amp;" (or_else (mgrs p) EmptyString))
                  (replace "&" "&amp;" (or_else (category p) "Ponto"))
                  (lookup icon_names (get_default (iconType p) "circle") "Padrão")
                  (get_default (color p) "#3388ff") la lo (now_text i)
             ++ "</description>"
             ++ "<styleUrl>#style_" ++ get_default (iconType p) "circle" ++ "</styleUrl>"
             ++ "<Point><coordinates>" ++ format_num lo ++ "," ++ format_num la
             ++ ",0</coordinates></Point>"
             ++ "</Placemark>") items
    /\ In ("<Style id=" ++ quoted ("style_" ++ get_default (iconType p) "circle") ++ ">")
          items.
Proof.
  intros Hperm Hp Hla Hlo.
  destruct (kml_items_shape timestamp now_text format_6f format_num set_order
              points connect) as (route & _ & Hk).
  eexists. split; [exact Hk|]. split.
  - rewrite !in_app_iff. do 4 right. left.
    exact (marks_nth_full now_text format_6f format_num points 0 i p la lo Hp Hla Hlo).
  - rewrite !in_app_iff. right. left.
    apply in_flat_map. exists (icon_of p). split.
    + apply (Permutation_in _ (Permutation_sym (Hperm _))).
      apply (proj2 (used_icons_spec points)).
      apply in_map. eapply nth_error_In. exact Hp.
    + left. reflexivity.
Qed.

Lemma marker_and_its_style_witness :
  nth_error [dropped_point; kept_point] 1 = Some kept_point
  /\ exists items,
    kml_items demo_timestamp demo_now demo_format_6f demo_format_num demo_set_order
      [dropped_point; kept_point] true = Returned items
    /\ In ("<Placemark><name>"
             ++ escape_name (or_else (name kept_point) ("Ponto " ++ decimal (1 + 1)))
             ++ "</name>"
             ++ "<description>"
             ++ description_of demo_format_6f
                  (replace "&" "&amp;" (or_else (mgrs kept_point) EmptyString))
                  (replace "&" "&amp;" (or_else (category kept_point) "Ponto"))
                  (lookup icon_names (get_default (iconType kept_point) "circle") "Padrão")
                  (get_default (color kept_point) "#3388ff")
                  (-23.5)%float (-46.625)%float (demo_now 1)
             ++ "</description>"
             ++ "<styleUrl>#style_" ++ get_default (iconType kept_point) "circle"
             ++ "</styleUrl>"
             ++ "<Point><coordinates>" ++ demo_format_num (-46.625)%float ++ ","
             ++ demo_format_num (-23.5)%float
             ++ ",0</coordinates></Point>"
             ++ "</Placemark>") items
    /\ In ("<Style id=" ++ quoted ("style_" ++ get_default (iconType kept_point) "circle")
             ++ ">") items.
Proof.
  split; [reflexivity|].
  apply (marker_and_its_style demo_timestamp demo_now demo_format_6f demo_format_num
           demo_set_order [dropped_point; kept_point] true 1 kept_point
           (-23.5)%float (-46.625)%float);
    try reflexivity.
  apply demo_set_order_perm.
Defined.

(** ** The catalogue of icons *)

Lemma lookup_absent table key default :
  existsb (String.eqb key) (map fst table) = false ->
  lookup table key default = default.
Proof.
  induction table as [|[k v] rest IH]; [reflexivity|].
  cbn [map fst existsb lookup]. intros H.
  apply orb_false_iff in H as [Hk Hr].
  rewrite String.eqb_sym, Hk. auto.
Qed.

(** X17. The two tables of icons have the same ten keys, and an icon type
    that is not one of them is drawn with the icon of [circle] and labelled
    with the label of [circle]; its style definition is still keyed by its
    own name. *)
Theorem unknown_icon_falls_back (icon_type : string) :
  map fst kml_icon_map = map fst icon_names
  /\ List.length kml_icon_map = 10
  /\ (existsb (String.eqb icon_type) (map fst kml_icon_map) = false ->
      lookup kml_icon_map icon_type circle_url = lookup kml_icon_map "circle" circle_url
      /\ lookup icon_names icon_type "Padrão" = lookup icon_names "circle" "Padrão"
      /\ style_lines icon_type
         = [ style_open icon_type;
             "<IconStyle><scale>1.3</scale><Icon><href>" ++ circle_url
               ++ "</href></Icon></IconStyle>";
             "<LabelStyle><scale>1.2</scale></LabelStyle>";
             "</Style>" ]).
Proof.
  split; [reflexivity|]. split; [reflexivity|].
  intros H.
  assert (H1 : lookup kml_icon_map icon_type circle_url = circle_url)
    by now apply lookup_absent.
  assert (H2 : lookup icon_names icon_type "Padrão" = "Padrão")
    by (apply lookup_absent; exact H).
  unfold style_lines. rewrite H1, H2. repeat split.
Qed.

Lemma unknown_icon_falls_back_witness :
  lookup kml_icon_map "tank" circle_url = lookup kml_icon_map "circle" circle_url
  /\ lookup icon_names "tank" "Padrão" = lookup icon_names "circle" "Padrão"
  /\ style_lines "tank"
     = [ style_open "tank";
         "<IconStyle><scale>1.3</scale><Icon><href>" ++ circle_url
           ++ "</href></Icon></IconStyle>";
         "<LabelStyle><scale>1.2</scale></LabelStyle>";
         "</Style>" ].
Proof.
  apply (proj2 (proj2 (unknown_icon_falls_back "tank"))). reflexivity.
Defined.

(** ** The escaping of names *)

(** What the chain of replacements makes of one character. *)
Lemma escape_char_cases c :
  (is_markup c = false /\ escape_name (String c EmptyString) = String c EmptyString)
  \/ (c = "&"%char /\ escape_name (String c EmptyString) = "&amp;")
  \/ (c = "<"%char /\ escape_name (String c EmptyString) = "&lt;")
  \/ (c = ">"%char /\ escape_name (String c EmptyString) = "&gt;").
Proof.
  destruct c as [[] [] [] [] [] [] [] []];
    first [ left; split; reflexivity
          | right; left; split; reflexivity
          | right; right; left; split; reflexivity
          | right; right; right; split; reflexivity ].
Qed.

(** X18. The escaping of names loses nothing: two names that differ are
    still different after the three replacements. *)
Theorem escape_name_injective (s t : string) :
  escape_name s = escape_name t -> s = t.
Proof.
  revert t. induction s as [|c r IH]; intros [|c' r'] E.
  - reflexivity.
  - rewrite escape_name_cons in E.
    destruct (escape_char_cases c') as [[_ H] | [[_ H] | [[_ H] | [_ H]]]];
      rewrite H in E; discriminate E.
  - rewrite escape_name_cons in E.
    destruct (escape_char_cases c) as [[_ H] | [[_ H] | [[_ H] | [_ H]]]];
      rewrite H in E; discriminate E.
  - rewrite (escape_name_cons c r), (escape_name_cons c' r') in E.
    destruct (escape_char_cases c) as [[Hm H] | [[-> H] | [[-> H] | [-> H]]]];
      destruct (escape_char_cases c') as [[Hm' H'] | [[-> H'] | [[-> H'] | [-> H']]]];
      rewrite H in E; try rewrite H' in E; simpl in E;
      try discriminate E;
      try (injection E as E; f_equal; now apply IH);
      try (injection E as -> E; discriminate);
      try (injection E as <- E; discriminate).
    injection E as -> E. f_equal. now apply IH.
Qed.

Lemma escape_name_injective_witness :
  escape_name "A&B" = escape_name "A&B" /\ "A&B" = "A&B".
Proof.
  split; [reflexivity|].
  apply (escape_name_injective "A&B" "A&B"). reflexivity.
Defined.

Lemma escape_name_length s : String.length s <= String.length (escape_name s).
Proof.
  induction s as [|c r IH]; [simpl; lia|].
  rewrite escape_name_cons, length_app.
  destruct (escape_char_cases c) as [[_ H] | [[_ H] | [[_ H] | [_ H]]]];
    rewrite H; simpl; lia.
Qed.

(** X19. A name goes into the document unchanged exactly when it has no
    [&], no [<] and no [>]. *)
Theorem escape_name_fixed_iff (s : string) :
  escape_name s = s <-> all_in (fun c => negb (is_markup c)) s = true.
Proof.
  induction s as [|c r IH]; [split; reflexivity|].
  rewrite escape_name_cons. cbn [all_in].
  destruct (escape_char_cases c) as [[Hm H] | [[-> H] | [[-> H] | [-> H]]]];
    rewrite H.
  - rewrite Hm. cbn [negb andb]. rewrite <- IH. simpl. split.
    + intros E. now injection E.
    + intros ->. reflexivity.
  - split; [|discriminate]. intros E.
    apply (f_equal String.length) in E. simpl in E.
    pose proof (escape_name_length r). lia.
  - split; [|discriminate]. intros E.
    apply (f_equal String.length) in E. simpl in E.
    pose proof (escape_name_length r). lia.
  - split; [|discriminate]. intros E.
    apply (f_equal String.length) in E. simpl in E.
    pose proof (escape_name_length r). lia.
Qed.
